(** * Hive NFT backend: the HTTP endpoints of server.js and the ledger
      helpers of nft.js, as a shallow embedding.

    The program is a sequence of awaited calls to three outside parties: the
    pinning provider (one HTTPS POST), the ledger network (create, mint,
    transfer) and the file [data/hives.json].  The embedding keeps the control
    flow of the source and makes the outside explicit:

    - what the outside answers is an input ([Env]): the provider's reply, the
      ledger's verdict on each transaction, the SDK's parsers, the clock;
    - what the process keeps between requests is a state ([World]): the file,
      whether it can be written, and the module cache of [require];
    - what the process does to the outside is a trace ([Event]): every HTTP
      post, ledger transaction, file access and console line, in order.  A
      console line carries the text of its first argument.

    A JavaScript exception is the [Thrown] outcome of a computation, carrying
    the [message] of the error object; [try]/[catch] is [try_catch].

    Strings are [string]s holding the UTF-8 encoding of the JavaScript string,
    so [Buffer.from(s).length] is [String.length s]. *)

From Stdlib Require Import Ascii DecimalString.
From stdpp Require Import base option list strings.

Local Open Scope string_scope.
Local Open Scope list_scope.

(** ** Data *)

(** A record of [data/hives.json].  [owner], [serialNumber] and [soldAt] are
    absent until the hive is sold. *)
Record Hive := mkHive {
  id : string;
  name : string;
  description : string;
  image : string;
  location : string;
  farmer : string;
  price : Z;
  status : string;
  owner : option string;
  serialNumber : option string;
  soldAt : option string
}.

Record Attribute := mkAttribute { trait_type : string; value : string }.

Record Metadata := mkMetadata {
  md_name : string;
  md_description : string;
  md_image : string;
  attributes : list Attribute
}.

(** What is stored at the path of [data/hives.json]. *)
Inductive FileContent :=
| FileMissing
| FileNotJson
| FileHives (hives : list Hive).

(** The state that outlives a request.  [require_cache] is the module cache of
    the [require] function made by [createRequire]: Node loads a JSON module
    once and returns the cached object on every later [require] of the same
    path.  The server is taken to run in the directory of server.js, so that
    [require('./data/hives.json')] and [path.join(process.cwd(), 'data',
    'hives.json')] name the same file. *)
Record World := mkWorld {
  file : FileContent;
  writable : bool;
  require_cache : option (list Hive)
}.

Inductive Level := LevelLog | LevelWarn | LevelError.

Inductive Event :=
| Console (lvl : Level) (text : string)
| PinataPost (pin_name : string) (content : Metadata)
| LedgerCreate
| LedgerMint (token supply_key metadata_bytes : string)
| LedgerTransfer (token serial sender receiver authority : string)
| RequireJson
| ReadFileSync
| WriteFileSync (hives : list Hive).

(** ** Computations: state, trace and exceptions *)

Inductive Outcome (A : Type) :=
| Returned (a : A)
| Thrown (message : string).
Arguments Returned {A} a.
Arguments Thrown {A} message.

Record Run (A : Type) := mkRun {
  outcome : Outcome A;
  world : World;
  trace : list Event
}.
Arguments mkRun {A} outcome world trace.
Arguments outcome {A} r.
Arguments world {A} r.
Arguments trace {A} r.

Definition M (A : Type) : Type := World → Run A.

Definition run {A} (m : M A) (w : World) : Run A := m w.

Definition m_ret {A} (a : A) : M A := λ w, mkRun (Returned a) w [].

Definition m_bind {A B} (k : A → M B) (m : M A) : M B := λ w,
  match m w with
  | mkRun (Returned a) w1 tr1 =>
      match k a w1 with
      | mkRun o w2 tr2 => mkRun o w2 (tr1 ++ tr2)
      end
  | mkRun (Thrown msg) w1 tr1 => mkRun (Thrown msg) w1 tr1
  end.

#[global] Instance M_ret : MRet M := @m_ret.
#[global] Instance M_bind : MBind M := @m_bind.

Definition throw {A} (msg : string) : M A := λ w, mkRun (Thrown msg) w [].

(** [try { body } catch (err) { handler(err.message) }] *)
Definition try_catch {A} (body : M A) (handler : string → M A) : M A := λ w,
  match body w with
  | mkRun (Returned a) w1 tr1 => mkRun (Returned a) w1 tr1
  | mkRun (Thrown msg) w1 tr1 =>
      match handler msg w1 with
      | mkRun o w2 tr2 => mkRun o w2 (tr1 ++ tr2)
      end
  end.

Definition emit (e : Event) : M unit := λ w, mkRun (Returned tt) w [e].

Definition console_log (text : string) : M unit := emit (Console LevelLog text).
Definition console_warn (text : string) : M unit := emit (Console LevelWarn text).
Definition console_error (text : string) : M unit := emit (Console LevelError text).

(** An outside call whose result the environment decides. *)
Definition await {A} (e : Event) (reply : Outcome A) : M A := λ w,
  mkRun reply w [e].

(** A pure library call that may throw. *)
Definition lift {A} (o : Outcome A) : M A := λ w, mkRun o w [].

(** ** JavaScript values *)

(** A field of a JSON request body or a header: absent, or a string.
    [!v] holds of an absent value and of the empty string. *)
Definition falsy (v : option string) : bool :=
  match v with
  | None => true
  | Some s => bool_decide (s = "")
  end.

(** [`${v}`] *)
Definition js_str (v : option string) : string := default "undefined" v.

(** [a || b] on strings *)
Definition or_else (a : option string) (b : string) : string :=
  if falsy a then b else js_str a.

Definition nat_to_string (n : nat) : string :=
  NilZero.string_of_uint (Nat.to_uint n).

Definition Z_to_string (z : Z) : string :=
  NilZero.string_of_int (Z.to_int z).

(** [Buffer.from(s).length] *)
Definition byte_length (s : string) : nat := String.length s.

(** The characters that a string literal of this file cannot hold. *)
Definition newline : string := String (ascii_of_nat 10) "".
Definition quote : string := String (ascii_of_nat 34) "".

(** The messages of the TypeErrors that Node raises: reading [.value] of
    [undefined] (an attribute that is not there), reading [.IpfsHash] of
    [null], and destructuring [req.body] when it is [undefined]; [property]
    is the first property of the pattern. *)
Definition type_error : string :=
  "Cannot read properties of undefined (reading 'value')".

Definition null_type_error : string :=
  "Cannot read properties of null (reading 'IpfsHash')".

Definition destructure_error (property : string) : string :=
  "Cannot destructure property '" +:+ property
    +:+ "' of 'req.body' as it is undefined.".

(** ** The outside *)

(** What the pinning provider answers to the POST. *)
Inductive PinataReply :=
| FetchRejects (message : string)          (* network error *)
| BodyNotJson (message : string)           (* response.json() rejects *)
| BodyNull                                 (* the body is the JSON null *)
| BodyObject (IpfsHash : option string).   (* an object, with or without the hash *)

Record TransferReceipt := mkTransferReceipt {
  transfer_transactionId : string;
  transfer_status : string
}.

Record CreateReceipt := mkCreateReceipt {
  created_tokenId : string;
  created_supplyKey : string;
  created_adminKey : string;
  created_transactionId : string
}.

Record Env := mkEnv {
  MY_ACCOUNT_ID : string;
  MY_PRIVATE_KEY : string;
  FRONTEND_URL : option string;
  (* the SDK's parsers: the canonical form of the identifier, or an error *)
  TokenId_fromString : string → Outcome string;
  PrivateKey_fromString : string → Outcome string;
  AccountId_fromString : string → Outcome string;
  (* new Date().toISOString() *)
  now : string;
  pinata : PinataReply;
  (* freeze, sign, execute and receipt of each transaction, as one call: the
     result, or the error of the step that failed *)
  ledger_create : Outcome CreateReceipt;
  ledger_mint : Outcome string;
  ledger_transfer : Outcome TransferReceipt
}.

(** ** uploadToPinata (nft.js 42-69, server.js 52-78: the two copies are
       the same text) *)

Definition hive_id_attribute (metadata : Metadata) : option Attribute :=
  snd <$> list_find (λ a, trait_type a = "Hive ID") (attributes metadata).

(** [(await response.json()).IpfsHash] for each reply: fetch or json() reject,
    reading a property of null throws, an object yields the field. *)
Definition IpfsHash_of (reply : PinataReply) : Outcome (option string) :=
  match reply with
  | FetchRejects msg => Thrown msg
  | BodyNotJson msg => Thrown msg
  | BodyNull => Thrown null_type_error
  | BodyObject h => Returned h
  end.

Definition uploadToPinata (env : Env) (metadata : Metadata) : M string :=
  try_catch
    (first ← match attributes metadata !! 0%nat with
             | Some a => mret a
             | None => throw type_error
             end;
     IpfsHash ← await (PinataPost ("Ecolive Hive #" +:+ value first) metadata)
                      (IpfsHash_of (pinata env));
     if falsy IpfsHash then throw "Pinata failed"
     else
       let ipfsUrl := "ipfs://" +:+ js_str IpfsHash in
       console_log "IPFS UPLOAD SUCCESS:";;
       mret ipfsUrl)
    (λ err,
       console_warn "Pinata failed → using fallback metadata";;
       match hive_id_attribute metadata with
       | Some a => mret ("hive:" +:+ value a)
       | None => throw type_error
       end).

(** ** The hive record store *)

(** [require('./data/hives.json')]: the cached array when the module has been
    loaded before, else the file is read, parsed and cached. *)
Definition require_hives : M (list Hive) := λ w,
  match require_cache w with
  | Some HIVES => mkRun (Returned HIVES) w []
  | None =>
      match file w with
      | FileHives HIVES =>
          mkRun (Returned HIVES)
                (mkWorld (file w) (writable w) (Some HIVES)) [RequireJson]
      | FileMissing =>
          mkRun (Thrown "Cannot find module './data/hives.json'") w [RequireJson]
      | FileNotJson =>
          mkRun (Thrown "Unexpected token in JSON") w [RequireJson]
      end
  end.

(** [JSON.parse(fs.readFileSync(hivesPath, 'utf8'))] *)
Definition read_hives_file : M (list Hive) := λ w,
  match file w with
  | FileHives hives => mkRun (Returned hives) w [ReadFileSync]
  | FileMissing => mkRun (Thrown "ENOENT: no such file or directory") w [ReadFileSync]
  | FileNotJson => mkRun (Thrown "Unexpected token in JSON") w [ReadFileSync]
  end.

(** [fs.writeFileSync(hivesPath, JSON.stringify(hives, null, 2))] *)
Definition write_hives_file (hives : list Hive) : M unit := λ w,
  if writable w
  then mkRun (Returned tt) (mkWorld (FileHives hives) (writable w) (require_cache w))
             [WriteFileSync hives]
  else mkRun (Thrown "EACCES: permission denied") w [WriteFileSync hives].

(** The four assignments of markHiveAsSold on one record. *)
Definition sell (buyerAccountId : option string) (serial soldAt' : string)
    (h : Hive) : Hive :=
  mkHive (id h) (name h) (description h) (image h) (location h) (farmer h)
         (price h) "sold" buyerAccountId (Some serial) (Some soldAt').

(** markHiveAsSold (server.js 83-101) *)
Definition markHiveAsSold (env : Env) (hiveId buyerAccountId : option string)
    (serial : string) : M unit :=
  try_catch
    (hives ← read_hives_file;
     match list_find (λ h, Some (id h) = hiveId) hives with
     | Some (hiveIndex, _) =>
         write_hives_file (alter (sell buyerAccountId serial (now env)) hiveIndex hives);;
         console_log ("✓ Marked hive " +:+ js_str hiveId +:+ " as sold")
     | None => mret tt
     end)
    (λ err, console_error "Failed to update hive status:").

(** ** HTTP responses *)

Inductive Body :=
| ErrorBody (error : string)
    (* {success:false, error} *)
| CreatedBody (tokenId supplyKey adminKey transactionId : string)
    (* {success:true, tokenId, supplyKey, adminKey, transactionId} *)
| MintedBody (serialNumber tokenId ipfsURL explorerUrl : string)
    (* {success:true, serialNumber, tokenId, ipfsURL, explorerUrl} *)
| BoughtBody (serialNumber tokenId explorerUrl transactionId message : string).
    (* {success:true, serialNumber, tokenId, explorerUrl, transactionId, message} *)

Record Response := mkResponse { http_status : nat; body : Body }.

(** [res.json(b)]: the status is Express's default, 200. *)
Definition res_json (b : Body) : Response := mkResponse 200 b.

(** [res.status(n).json(b)] *)
Definition res_status_json (n : nat) (b : Body) : Response := mkResponse n b.

(** [err.message || fallback] *)
Definition message_or (msg fallback : string) : string :=
  if bool_decide (msg = "") then fallback else msg.

(** ** nft.js *)

(** The result object of the two exported functions:
    [{success:true, ...}] or [{success:false, error}]. *)
Inductive Result (A : Type) :=
| Success (a : A)
| Failure (error : string).
Arguments Success {A} a.
Arguments Failure {A} error.

(** createHiveTokenCollection (nft.js 74-117).  Building, freezing, signing
    and executing the transaction and fetching its receipt are one call to
    the ledger; the two generated keys, the token id and the transaction id
    come with its result. *)
Definition createHiveTokenCollection (env : Env) : M (Result CreateReceipt) :=
  try_catch
    (console_log (newline +:+ "Creating NFT Collection...");;
     receipt ← await LedgerCreate (ledger_create env);
     let tokenId := created_tokenId receipt in
     console_log ("Created NFT Collection: " +:+ tokenId);;
     console_log ("Explorer: https://hashscan.io/testnet/token/" +:+ tokenId);;
     console_log ("SUPPLY KEY (SAVE!): " +:+ created_supplyKey receipt);;
     console_log ("ADMIN KEY (SAVE!): " +:+ created_adminKey receipt);;
     mret (Success receipt))
    (λ error,
       console_error "Token creation failed:";;
       mret (Failure error)).

(** The attributes of a hive as the body of POST /api/mint-nft carries them. *)
Record HiveMetadata := mkHiveMetadata {
  hm_name : option string;
  hm_description : option string;
  hm_imageURL : option string;
  hm_hiveId : option string;
  hm_location : option string;
  hm_farmer : option string;
  hm_investmentAmount : option string;
  hm_status : option string
}.

Definition fullMetadata (hiveMetadata : HiveMetadata) : Metadata :=
  mkMetadata
    (or_else (hm_name hiveMetadata) "Ecolive Hive")
    (or_else (hm_description hiveMetadata) "Beehive investment NFT")
    (or_else (hm_imageURL hiveMetadata)
             "https://via.placeholder.com/400x300?text=Beehive")
    [ mkAttribute "Hive ID" (or_else (hm_hiveId hiveMetadata) "HIVE-001");
      mkAttribute "Location" (or_else (hm_location hiveMetadata) "Nairobi, Kenya");
      mkAttribute "Farmer" (or_else (hm_farmer hiveMetadata) "John Doe");
      mkAttribute "Investment"
        ("$" +:+ or_else (hm_investmentAmount hiveMetadata) "5000");
      mkAttribute "Status" ("$" +:+ or_else (hm_status hiveMetadata) "active") ].

Definition explorer_url (tokenId serial : string) : string :=
  "https://hashscan.io/testnet/token/" +:+ tokenId +:+ "/" +:+ serial.

(** mintHiveNFT (nft.js 122-185).  [supplyKey] and [tokenId] are objects of
    the SDK; [None] stands for [undefined]. *)
Definition mintHiveNFT (env : Env) (supplyKey tokenId : option string)
    (hiveMetadata : HiveMetadata) : M Body :=
  match tokenId, supplyKey with
  | Some tokenId, Some supplyKey =>
      try_catch
        (console_log (newline +:+ "Minting NFT...");;
         console_log "Token ID:";;
         console_log "Full Metadata:";;
         ipfsURL ← uploadToPinata env (fullMetadata hiveMetadata);
         console_log "Uploaded to IPFS: ";;
         let metadata := ipfsURL in
         console_log ("Hedera metadata: " +:+ quote +:+ ipfsURL +:+ quote +:+ " ("
                       +:+ nat_to_string (byte_length metadata) +:+ " bytes)");;
         if bool_decide (100 < byte_length metadata)%nat
         then throw ("Metadata too long: " +:+ nat_to_string (byte_length metadata)
                       +:+ " bytes")
         else
           console_log "Executing mint...";;
           serial ← await (LedgerMint tokenId supplyKey metadata) (ledger_mint env);
           console_log ("Minted NFT #" +:+ serial);;
           console_log ("View: " +:+ explorer_url tokenId serial);;
           mret (MintedBody serial tokenId ipfsURL (explorer_url tokenId serial)))
        (λ error,
           console_error "Mint failed:";;
           mret (ErrorBody error))
  | _, _ =>
      throw "Token not created yet. Run createHiveTokenCollection() first."
  end.

(** ** server.js: the endpoints *)

(** POST /api/create-token (server.js 113-132) *)
Definition create_token (env : Env) : M Response :=
  console_log "CREATE-TOKEN REQUEST RECEIVED";;
  try_catch
    (result ← createHiveTokenCollection env;
     match result with
     | Success r =>
         mret (res_json (CreatedBody (created_tokenId r) (created_supplyKey r)
                                     (created_adminKey r) (created_transactionId r)))
     | Failure error => mret (res_json (ErrorBody error))
     end)
    (λ err,
       console_error "CREATE ERROR:";;
       mret (res_status_json 500 (ErrorBody err))).

Record MintRequest := mkMintRequest {
  mint_tokenId : option string;
  mint_supplyKey : option string;
  mint_hiveMetadata : HiveMetadata
}.

(** POST /api/mint-nft (server.js 135-154), for a request whose [req.body]
    is an object; [mint_nft_without_body] below is the other case. *)
Definition mint_nft (env : Env) (req : MintRequest) : M Response :=
  console_log "MINT-NFT REQUEST RECEIVED";;
  let tokenIdStr := mint_tokenId req in
  let supplyKeyStr := mint_supplyKey req in
  let hiveMetadata := mint_hiveMetadata req in
  if falsy tokenIdStr || falsy supplyKeyStr
  then mret (res_status_json 400 (ErrorBody "Missing tokenId or supplyKey"))
  else
    try_catch
      (console_log "Minting NFT for:";;
       tokenId ← lift (TokenId_fromString env (js_str tokenIdStr));
       supplyKey ← lift (PrivateKey_fromString env (js_str supplyKeyStr));
       result ← mintHiveNFT env (Some supplyKey) (Some tokenId) hiveMetadata;
       mret (res_json result))
      (λ err,
         console_error "MINT NFT ERROR:";;
         mret (res_status_json 500 (ErrorBody (message_or err "Mint failed")))).

Record BuyRequest := mkBuyRequest {
  buy_hiveId : option string;
  buy_investorAccountId : option string;
  buy_tokenId : option string;
  buy_supplyKey : option string
}.

(** The metadata document of a purchase (server.js 196-208). *)
Definition purchase_metadata (hive : Hive) (investorAccountId : option string)
    : Metadata :=
  mkMetadata (name hive) (description hive) (image hive)
    [ mkAttribute "Hive ID" (id hive);
      mkAttribute "Location" (location hive);
      mkAttribute "Farmer" (farmer hive);
      mkAttribute "Investment" (Z_to_string (price hive) +:+ " HBAR");
      mkAttribute "Status" "sold";
      mkAttribute "Owner" (js_str investorAccountId) ].

Definition already_sold : Response :=
  res_status_json 400 (ErrorBody "This hive has already been sold").

Definition missing_fields : Response :=
  res_status_json 400
    (ErrorBody "Missing required fields: tokenId, supplyKey, or investorAccountId").

Definition not_found (hiveId : option string) : Response :=
  res_status_json 404
    (ErrorBody ("Hive with id " +:+ js_str hiveId +:+ " not found")).

(** [HIVES.find(h => h.id === hiveId)] *)
Definition find_hive (hiveId : option string) (HIVES : list Hive) : option Hive :=
  snd <$> list_find (λ h, Some (id h) = hiveId) HIVES.

(** POST /api/buy-hive (server.js 157-273), for a request whose [req.body]
    is an object; [buy_hive_without_body] below is the other case.  The serial
    number is kept as its decimal string, the only form the handler uses.  The
    client of lines 219-223 is built from the operator's account and key,
    which lines 173-174 have parsed by then. *)
Definition buy_hive (env : Env) (req : BuyRequest) : M Response :=
  let hiveId := buy_hiveId req in
  let investorAccountId := buy_investorAccountId req in
  let tokenIdStr := buy_tokenId req in
  let supplyKeyStr := buy_supplyKey req in
  console_log "BUY REQUEST RECEIVED:";;
  try_catch
    (if falsy tokenIdStr || falsy supplyKeyStr || falsy investorAccountId
     then mret missing_fields
     else
       tokenId ← lift (TokenId_fromString env (js_str tokenIdStr));
       supplyKey ← lift (PrivateKey_fromString env (js_str supplyKeyStr));
       buyerAccountId ← lift (AccountId_fromString env (js_str investorAccountId));
       treasuryAccountId ← lift (AccountId_fromString env (MY_ACCOUNT_ID env));
       treasuryKey ← lift (PrivateKey_fromString env (MY_PRIVATE_KEY env));
       HIVES ← require_hives;
       match find_hive hiveId HIVES with
       | None => mret (not_found hiveId)
       | Some hive =>
           if bool_decide (status hive = "sold")
           then mret already_sold
           else
             let metadata := purchase_metadata hive investorAccountId in
             ipfsUrl ← uploadToPinata env metadata;
             let metadataBytes := ipfsUrl in
             if bool_decide (100 < byte_length metadataBytes)%nat
             then throw "Metadata too big (max 100 bytes)"
             else
               console_log "Step 1: Minting NFT to treasury...";;
               serial ← await (LedgerMint tokenId supplyKey metadataBytes)
                               (ledger_mint env);
               console_log ("✓ Minted NFT #" +:+ serial +:+ " to treasury");;
               console_log ("Step 2: Transferring NFT #" +:+ serial +:+ " to buyer "
                             +:+ js_str investorAccountId +:+ "...");;
               transferReceipt ←
                 await (LedgerTransfer tokenId serial treasuryAccountId
                                       buyerAccountId treasuryKey)
                       (ledger_transfer env);
               console_log ("✓ Transfer successful! Status: "
                             +:+ transfer_status transferReceipt);;
               markHiveAsSold env hiveId investorAccountId serial;;
               mret (res_json
                       (BoughtBody serial tokenId (explorer_url tokenId serial)
                          (transfer_transactionId transferReceipt)
                          "NFT minted and transferred to your wallet!"))
       end)
    (λ err,
       console_error "BUY-HIVE ERROR:";;
       mret (res_status_json 500 (ErrorBody (message_or err "Purchase failed")))).

(** ** The cross-origin policy (server.js 26-45) *)

Definition allowedOrigins (env : Env) : list string :=
  [ "http://localhost:5173";
    "http://localhost:3000";
    or_else (FRONTEND_URL env) "https://your-frontend.onrender.com" ].

(** The two ways the origin function calls back:
    [callback(null, true)] and [callback(new Error(...))]. *)
Inductive CorsVerdict :=
| Allowed
| Refused (message : string).

(** [origin] is the value of the request's Origin header, [None] when the
    request has none. *)
Definition cors_origin (env : Env) (origin : option string) : M CorsVerdict :=
  if falsy origin then mret Allowed
  else if bool_decide (js_str origin ∈ allowedOrigins env)
  then mret Allowed
  else
    console_log "Blocked origin:";;
    mret (Refused "Not allowed by CORS").

(** ** Reading a trace *)

(** Transactions handed to the ledger. *)
Definition is_ledger (e : Event) : bool :=
  match e with
  | LedgerCreate | LedgerMint _ _ _ | LedgerTransfer _ _ _ _ _ => true
  | _ => false
  end.

(** Posts to the pinning provider. *)
Definition is_publish (e : Event) : bool :=
  match e with
  | PinataPost _ _ => true
  | _ => false
  end.

(** The file accesses of markHiveAsSold: it is the only reader through
    [fs.readFileSync] and the only writer. *)
Definition is_store_update (e : Event) : bool :=
  match e with
  | ReadFileSync | WriteFileSync _ => true
  | _ => false
  end.

Definition ledger_calls (tr : list Event) : list Event := filter is_ledger tr.
Definition publish_calls (tr : list Event) : list Event := filter is_publish tr.
Definition store_updates (tr : list Event) : list Event := filter is_store_update tr.

(** The provider failed: network error, malformed response, or a response
    without a content hash. *)
Definition provider_fails (reply : PinataReply) : Prop :=
  match reply with
  | FetchRejects _ | BodyNotJson _ | BodyNull => True
  | BodyObject h => falsy h = true
  end.

(** The documents that the program gives to uploadToPinata.  The function is
    private to its module in both files and has one call site in each:
    nft.js 147, with the document of lines 132-145, and server.js 211, with
    the document of lines 196-208. *)
Inductive published : Metadata → Prop :=
| published_by_mint (hiveMetadata : HiveMetadata) :
    published (fullMetadata hiveMetadata)
| published_by_purchase (hive : Hive) (investorAccountId : option string) :
    published (purchase_metadata hive investorAccountId).

(** The routes of the three POST endpoints. *)
Inductive Call :=
| PostCreateToken
| PostMintNft (req : MintRequest)
| PostBuyHive (req : BuyRequest).

Definition handle (env : Env) (c : Call) : M Response :=
  match c with
  | PostCreateToken => create_token env
  | PostMintNft req => mint_nft env req
  | PostBuyHive req => buy_hive env req
  end.

(** The ledger answered the transaction [e] with an error of message [msg]. *)
Definition rejected (env : Env) (e : Event) (msg : string) : Prop :=
  match e with
  | LedgerCreate => ledger_create env = Thrown msg
  | LedgerMint _ _ _ => ledger_mint env = Thrown msg
  | LedgerTransfer _ _ _ _ _ => ledger_transfer env = Thrown msg
  | _ => False
  end.

(** The store cannot take the update of [hiveId]: the file is missing or is
    not JSON, it has no record of that id, or it cannot be written. *)
Definition commit_fails (w : World) (hiveId : option string) : Prop :=
  match file w with
  | FileMissing | FileNotJson => True
  | FileHives hives => find_hive hiveId hives = None ∨ writable w = false
  end.

(** The condition of the first check (server.js 163). *)
Definition fields_missing (req : BuyRequest) : bool :=
  falsy (buy_tokenId req) || falsy (buy_supplyKey req)
  || falsy (buy_investorAccountId req).

(** The SDK accepts the three identifiers of the request and the operator's
    account and key (server.js 170-174). *)
Definition identifiers_parse (env : Env) (req : BuyRequest) : Prop :=
  (∃ t, TokenId_fromString env (js_str (buy_tokenId req)) = Returned t) ∧
  (∃ k, PrivateKey_fromString env (js_str (buy_supplyKey req)) = Returned k) ∧
  (∃ b, AccountId_fromString env (js_str (buy_investorAccountId req)) = Returned b) ∧
  (∃ a, AccountId_fromString env (MY_ACCOUNT_ID env) = Returned a) ∧
  (∃ k, PrivateKey_fromString env (MY_PRIVATE_KEY env) = Returned k).

(** A run that called neither the provider nor the ledger and left the
    stored records alone. *)
Definition quiet (r : Run Response) (w : World) : Prop :=
  publish_calls (trace r) = [] ∧
  ledger_calls (trace r) = [] ∧
  store_updates (trace r) = [] ∧
  file (world r) = file w.

(** What a handler answers when the ledger rejects its transaction. *)
Definition rejection_response (c : Call) (msg : string) : Response :=
  match c with
  | PostBuyHive _ =>
      res_status_json 500 (ErrorBody (message_or msg "Purchase failed"))
  | PostCreateToken | PostMintNft _ => res_json (ErrorBody msg)
  end.

(** ** Sample data *)

Definition accept_all (s : string) : Outcome string := Returned s.




Definition hive_001 : Hive :=
  mkHive "HIVE-001" "Golden Hive" "Premium beehive in Nairobi"
         "https://example.com/hive1.jpg" "Nairobi, Kenya" "Jane Kamau"
         5000 "available" None None None.

Definition sample_env : Env :=
  mkEnv "0.0.2" "operator-key" None accept_all accept_all accept_all
        "2025-01-01T00:00:00.000Z"
        (BodyObject (Some "QmHash"))
        (Returned (mkCreateReceipt "0.0.5678" "supply-key" "admin-key" "0.0.2@1.0"))
        (Returned "1")
        (Returned (mkTransferReceipt "0.0.2@2.0" "SUCCESS")).

Definition with_pinata (reply : PinataReply) (env : Env) : Env :=
  mkEnv (MY_ACCOUNT_ID env) (MY_PRIVATE_KEY env) (FRONTEND_URL env)
        (TokenId_fromString env) (PrivateKey_fromString env)
        (AccountId_fromString env) (now env) reply
        (ledger_create env) (ledger_mint env) (ledger_transfer env).

Definition with_ledger (create : Outcome CreateReceipt) (mint : Outcome string)
    (transfer : Outcome TransferReceipt) (env : Env) : Env :=
  mkEnv (MY_ACCOUNT_ID env) (MY_PRIVATE_KEY env) (FRONTEND_URL env)
        (TokenId_fromString env) (PrivateKey_fromString env)
        (AccountId_fromString env) (now env) (pinata env)
        create mint transfer.


Definition sample_world : World := mkWorld (FileHives [hive_001]) true None.

Definition sample_request : BuyRequest :=
  mkBuyRequest (Some "HIVE-001") (Some "0.0.1234") (Some "0.0.5678")
               (Some "valid-key").

Definition rejecting_mint (msg : string) : Env :=
  with_ledger (ledger_create sample_env) (Thrown msg) (ledger_transfer sample_env)
              sample_env.

Definition rejecting_transfer (msg : string) : Env :=
  with_ledger (ledger_create sample_env) (ledger_mint sample_env) (Thrown msg)
              sample_env.

Definition rejecting_create (msg : string) : Env :=
  with_ledger (Thrown msg) (ledger_mint sample_env) (ledger_transfer sample_env)
              sample_env.

(** A content hash of 118 bytes. *)
Definition long_hash : string :=
  "bafybeigdyrzt5sfp7udm7hu76uh7y26nf3efuylqabf3oclgtqy55fbzdibafybeigdyrzt5sfp7udm7hu76uh7y26nf3efuylqabf3oclgtqy55fbzdi".

Definition long_uri_env : Env := with_pinata (BodyObject (Some long_hash)) sample_env.

Definition hive_001_sold : Hive :=
  sell (Some "0.0.1234") "1" "2025-01-01T00:00:00.000Z" hive_001.

(** ** server.js: the GET endpoints *)

Inductive GetBody :=
| GetError (error : string)
    (* {success:false, error} *)
| HiveStatusBody (hiveId status : string) (isAvailable : bool)
                 (owner serialNumber : option string)
    (* {success:true, hiveId, status, isAvailable, owner, serialNumber};
       [None] is null *)
| HealthBody (status timestamp environment : string).
    (* {status, timestamp, environment} *)

Record GetResponse := mkGetResponse { get_status : nat; get_body : GetBody }.

(** [v || null] *)
Definition or_null (v : option string) : option string :=
  if falsy v then None else v.

(** GET /health (server.js 104-110); [NODE_ENV] is [process.env.NODE_ENV]. *)
Definition health (env : Env) (NODE_ENV : option string) : M GetResponse :=
  mret (mkGetResponse 200
          (HealthBody "ok" (now env) (or_else NODE_ENV "development"))).

(** GET /api/hive-status/:hiveId (server.js 276-297).  A route parameter is
    always a string. *)
Definition hive_status (hiveId : string) : M GetResponse :=
  try_catch
    (HIVES ← require_hives;
     match find_hive (Some hiveId) HIVES with
     | None => mret (mkGetResponse 404 (GetError "Hive not found"))
     | Some hive =>
         mret (mkGetResponse 200
                 (HiveStatusBody (id hive) (status hive)
                    (negb (bool_decide (status hive = "sold")))
                    (or_null (owner hive)) (or_null (serialNumber hive))))
     end)
    (λ err, mret (mkGetResponse 500 (GetError err))).

(** The two POST handlers that read the body destructure [req.body] before
    their [try] (server.js 137 and 158).  When [express.json()] has left
    [req.body] undefined (a request without a JSON body), the destructuring
    throws and the exception leaves the handler: mint-nft has logged the
    request by then, buy-hive has done nothing. *)
Definition mint_nft_without_body : M Response :=
  console_log "MINT-NFT REQUEST RECEIVED";;
  throw (destructure_error "tokenId").

Definition buy_hive_without_body : M Response :=
  throw (destructure_error "hiveId").

(** The five routes of the application, for a request that the cross-origin
    policy admitted.  [Post c] is a POST whose body, if the handler reads
    one, is an object; the next two are the POSTs whose [req.body] is
    undefined. *)
Inductive Route :=
| Post (c : Call)
| PostMintNftWithoutBody
| PostBuyHiveWithoutBody
| GetHiveStatus (hiveId : string)
| GetHealth.

(** The requests whose handler finds no body to destructure. *)
Definition without_body (route : Route) : Prop :=
  route = PostMintNftWithoutBody ∨ route = PostBuyHiveWithoutBody.

Inductive Answer :=
| PostAnswer (r : Response)
| GetAnswer (r : GetResponse).

Definition serve (env : Env) (NODE_ENV : option string) (route : Route)
    : M Answer :=
  match route with
  | Post c => r ← handle env c; mret (PostAnswer r)
  | PostMintNftWithoutBody => r ← mint_nft_without_body; mret (PostAnswer r)
  | PostBuyHiveWithoutBody => r ← buy_hive_without_body; mret (PostAnswer r)
  | GetHiveStatus hiveId => r ← hive_status hiveId; mret (GetAnswer r)
  | GetHealth => r ← health env NODE_ENV; mret (GetAnswer r)
  end.

Definition answer_status (a : Answer) : nat :=
  match a with
  | PostAnswer r => http_status r
  | GetAnswer r => get_status r
  end.

(** The answer is a failure object [{success:false, error}]. *)
Definition is_failure (a : Answer) : Prop :=
  match a with
  | PostAnswer r => ∃ error, body r = ErrorBody error
  | GetAnswer r => ∃ error, get_body r = GetError error
  end.

(** A hive whose id is 118 bytes long, and a request for it. *)
Definition long_id_hive : Hive :=
  mkHive long_hash "Far Hive" "A hive with a long id"
         "https://example.com/far.jpg" "Kitui, Kenya" "John Doe"
         7000 "available" None None None.

Definition long_id_request : BuyRequest :=
  mkBuyRequest (Some long_hash) (Some "0.0.1234") (Some "0.0.5678")
               (Some "valid-key").

Definition provider_down : Env :=
  with_pinata (FetchRejects "getaddrinfo ENOTFOUND api.pinata.cloud") sample_env.

Definition sample_mint_request : MintRequest :=
  mkMintRequest (Some "0.0.5678") (Some "supply-key")
    (mkHiveMetadata (Some "Golden Hive #1") (Some "Premium beehive in Nairobi")
                    (Some "https://example.com/hive1.jpg") (Some "HIVE-001")
                    (Some "Nairobi, Kenya") (Some "Jane Kamau") (Some "10000")
                    None).

(** The third entry of the allow-list when FRONTEND_URL is not set. *)
Definition default_frontend : string := "https://your-frontend.onrender.com".

Definition with_frontend (url : option string) (env : Env) : Env :=
  mkEnv (MY_ACCOUNT_ID env) (MY_PRIVATE_KEY env) url
        (TokenId_fromString env) (PrivateKey_fromString env)
        (AccountId_fromString env) (now env) (pinata env)
        (ledger_create env) (ledger_mint env) (ledger_transfer env).

(** The process is started again: the file is as it was left and nothing is
    cached. *)
Definition restart (w : World) : World := mkWorld (file w) (writable w) None.

(** * Properties *)

(** An event is in a trace that has been computed. *)
Ltac in_trace :=
  simpl; repeat first [apply list_elem_of_here | apply list_elem_of_further].

(** Unfold the monad down to runs. *)
Ltac unfold_m :=
  unfold try_catch, mbind, M_bind, m_bind, mret, M_ret, m_ret, throw, await,
    lift, console_log, console_warn, console_error, emit in *.

(** ** The metadata publisher *)

Section Publisher.
Context (env : Env) (metadata : Metadata) (w : World).

Lemma hive_id_attribute_first a :
  hive_id_attribute metadata = Some a →
  ∃ first, attributes metadata !! 0%nat = Some first.
Proof.
  unfold hive_id_attribute.
  destruct (attributes metadata) as [|first rest]; [discriminate|].
  intros _. by exists first.
Qed.

(** Publishing leaves the record store and the module cache alone. *)
Lemma uploadToPinata_world :
  world (uploadToPinata env metadata w) = w.
Proof.
  unfold uploadToPinata, IpfsHash_of. unfold_m.
  destruct (attributes metadata !! 0%nat); simpl;
    [destruct (pinata env) as [?|?| |h]; simpl; [| | |destruct (falsy h); simpl] |];
    destruct (hive_id_attribute metadata); reflexivity.
Qed.

(** Publishing does not touch the ledger or the file. *)
Lemma uploadToPinata_trace :
  ledger_calls (trace (uploadToPinata env metadata w)) = [] ∧
  store_updates (trace (uploadToPinata env metadata w)) = [].
Proof.
  unfold uploadToPinata, IpfsHash_of. unfold_m.
  destruct (attributes metadata !! 0%nat); simpl;
    [destruct (pinata env) as [?|?| |h]; simpl; [| | |destruct (falsy h); simpl] |];
    destruct (hive_id_attribute metadata); split; reflexivity.
Qed.

(** When the provider fails, the result is the fallback and a warning is
    logged. *)
Lemma uploadToPinata_fallback a :
  hive_id_attribute metadata = Some a →
  provider_fails (pinata env) →
  outcome (uploadToPinata env metadata w) = Returned ("hive:" +:+ value a) ∧
  Console LevelWarn "Pinata failed → using fallback metadata"
    ∈ trace (uploadToPinata env metadata w).
Proof.
  intros Ha Hfail.
  destruct (hive_id_attribute_first a Ha) as [first Hfirst].
  unfold uploadToPinata, IpfsHash_of. unfold_m.
  rewrite Hfirst, Ha. simpl.
  destruct (pinata env) as [?|?| |h]; simpl in *;
    try rewrite Hfail; simpl; (split; [reflexivity | in_trace]).
Qed.

End Publisher.





(** C7.  Two publishes of documents that carry the same "Hive ID" value,
    both with the provider unreachable, return the same fallback URI. *)
Theorem fallback_deterministic env1 env2 md1 md2 w1 w2 a1 a2 msg1 msg2 :
  hive_id_attribute md1 = Some a1 →
  hive_id_attribute md2 = Some a2 →
  value a1 = value a2 →
  pinata env1 = FetchRejects msg1 →
  pinata env2 = FetchRejects msg2 →
  outcome (uploadToPinata env1 md1 w1) = outcome (uploadToPinata env2 md2 w2) ∧
  outcome (uploadToPinata env1 md1 w1) = Returned ("hive:" +:+ value a1).
Proof.
  intros H1 H2 Hv Hp1 Hp2.
  assert (F1 : provider_fails (pinata env1)) by (by rewrite Hp1).
  assert (F2 : provider_fails (pinata env2)) by (by rewrite Hp2).
  destruct (uploadToPinata_fallback env1 md1 w1 a1 H1 F1) as [-> _].
  destruct (uploadToPinata_fallback env2 md2 w2 a2 H2 F2) as [-> _].
  by rewrite Hv.
Qed.

Lemma fallback_deterministic_witness :
  let env1 := with_pinata (FetchRejects "ECONNREFUSED") sample_env in
  let env2 := with_pinata (FetchRejects "ETIMEDOUT") sample_env in
  let md1 := purchase_metadata hive_001 (Some "0.0.1234") in
  let md2 := fullMetadata (mkHiveMetadata None None None (Some "HIVE-001")
                                          None None None None) in
  outcome (uploadToPinata env1 md1 sample_world)
  = outcome (uploadToPinata env2 md2 (mkWorld FileMissing false None)) ∧
  outcome (uploadToPinata env1 md1 sample_world) = Returned "hive:HIVE-001".
Proof.
  intros env1 env2 md1 md2.
  apply (fallback_deterministic env1 env2 md1 md2 _ _
           (mkAttribute "Hive ID" "HIVE-001") (mkAttribute "Hive ID" "HIVE-001")
           "ECONNREFUSED" "ETIMEDOUT"); reflexivity.
Defined.

(** ** The record store *)

Section Store.
Context (env : Env) (w : World).

(** [require] never writes, and reads the file only when nothing is cached. *)
Lemma require_hives_world :
  file (world (require_hives w)) = file w ∧
  writable (world (require_hives w)) = writable w.
Proof.
  unfold require_hives.
  destruct (require_cache w); [done|].
  by destruct (file w) eqn:Hfile; simpl; rewrite ?Hfile.
Qed.

Lemma require_hives_trace :
  ledger_calls (trace (require_hives w)) = [] ∧
  publish_calls (trace (require_hives w)) = [] ∧
  store_updates (trace (require_hives w)) = [].
Proof.
  unfold require_hives.
  destruct (require_cache w); [done|]. by destruct (file w).
Qed.

(** Once loaded, the array stays in the cache. *)
Lemma require_hives_cached HIVES :
  outcome (require_hives w) = Returned HIVES →
  require_cache (world (require_hives w)) = Some HIVES.
Proof.
  unfold require_hives.
  destruct (require_cache w) eqn:Hc; simpl; [congruence|].
  destruct (file w); simpl; congruence.
Qed.

Context (hiveId buyerAccountId : option string) (serial : string).

(** The whole body of markHiveAsSold sits in a try block whose handler only
    logs: the call returns whatever happens to the file. *)
Lemma markHiveAsSold_returns :
  outcome (markHiveAsSold env hiveId buyerAccountId serial w) = Returned tt.
Proof.
  unfold markHiveAsSold, read_hives_file, write_hives_file. unfold_m.
  destruct (file w) as [| |hives]; simpl; try reflexivity.
  destruct (list_find _ hives) as [[hiveIndex ?]|]; simpl; [|reflexivity].
  destruct (writable w); reflexivity.
Qed.

Lemma markHiveAsSold_trace :
  ledger_calls (trace (markHiveAsSold env hiveId buyerAccountId serial w)) = [] ∧
  publish_calls (trace (markHiveAsSold env hiveId buyerAccountId serial w)) = [].
Proof.
  unfold markHiveAsSold, read_hives_file, write_hives_file. unfold_m.
  destruct (file w) as [| |hives]; simpl; try done.
  destruct (list_find _ hives) as [[hiveIndex ?]|]; simpl; [|done].
  by destruct (writable w).
Qed.

Lemma markHiveAsSold_silent :
  commit_fails w hiveId →
  world (markHiveAsSold env hiveId buyerAccountId serial w) = w.
Proof.
  unfold commit_fails, find_hive.
  unfold markHiveAsSold, read_hives_file, write_hives_file. unfold_m.
  destruct w as [f wr cache]; simpl.
  destruct f as [| |hives]; simpl; try reflexivity.
  destruct (list_find _ hives) as [[hiveIndex ?]|]; simpl; [|reflexivity].
  intros [?| ->]; [discriminate|reflexivity].
Qed.

(** When the record is there and the file can be written, it is rewritten
    with that record sold and every other record as it was. *)
Lemma markHiveAsSold_commits hives hiveIndex hive :
  file w = FileHives hives →
  writable w = true →
  list_find (λ h, Some (id h) = hiveId) hives = Some (hiveIndex, hive) →
  file (world (markHiveAsSold env hiveId buyerAccountId serial w))
  = FileHives (alter (sell buyerAccountId serial (now env)) hiveIndex hives).
Proof.
  intros Hf Hw Hfind.
  unfold markHiveAsSold, read_hives_file, write_hives_file. unfold_m.
  rewrite Hf. simpl. rewrite Hfind. simpl. by rewrite Hw.
Qed.
End Store.

(** ** Filtering traces *)

Section Filters.
Context (p : Event → bool).

Lemma filter_event_cons e tr :
  filter p (e :: tr) = if p e then e :: filter p tr else filter p tr.
Proof.
  destruct (p e) eqn:He.
  - rewrite filter_cons_True; [done|]. by apply Is_true_true.
  - rewrite filter_cons_False; [done|]. by apply Is_true_false.
Qed.

Lemma filter_event_elem e (tr : list Event) :
  e ∈ tr → p e = true → e ∈ filter p tr.
Proof.
  intros Hin He. apply list_elem_of_filter. split; [|done].
  by apply Is_true_true.
Qed.
End Filters.

Lemma ledger_calls_cons e tr :
  ledger_calls (e :: tr)
  = if is_ledger e then e :: ledger_calls tr else ledger_calls tr.
Proof. apply filter_event_cons. Qed.

Lemma ledger_calls_app tr1 tr2 :
  ledger_calls (tr1 ++ tr2) = ledger_calls tr1 ++ ledger_calls tr2.
Proof. apply filter_app. Qed.

Lemma publish_calls_cons e tr :
  publish_calls (e :: tr)
  = if is_publish e then e :: publish_calls tr else publish_calls tr.
Proof. apply filter_event_cons. Qed.

Lemma publish_calls_app tr1 tr2 :
  publish_calls (tr1 ++ tr2) = publish_calls tr1 ++ publish_calls tr2.
Proof. apply filter_app. Qed.

Lemma store_updates_cons e tr :
  store_updates (e :: tr)
  = if is_store_update e then e :: store_updates tr else store_updates tr.
Proof. apply filter_event_cons. Qed.

Lemma store_updates_app tr1 tr2 :
  store_updates (tr1 ++ tr2) = store_updates tr1 ++ store_updates tr2.
Proof. apply filter_app. Qed.

Lemma ledger_calls_nil : ledger_calls [] = [].
Proof. reflexivity. Qed.

Lemma publish_calls_nil : publish_calls [] = [].
Proof. reflexivity. Qed.

Lemma store_updates_nil : store_updates [] = [].
Proof. reflexivity. Qed.

Create Rewrite HintDb trace_filter.
#[global] Hint Rewrite ledger_calls_cons ledger_calls_app ledger_calls_nil
  publish_calls_cons publish_calls_app publish_calls_nil
  store_updates_cons store_updates_app store_updates_nil : trace_filter.

Lemma ledger_calls_elem e (tr : list Event) : e ∈ tr → is_ledger e = true → e ∈ ledger_calls tr.
Proof. apply filter_event_elem. Qed.

Lemma publish_calls_elem e (tr : list Event) : e ∈ tr → is_publish e = true → e ∈ publish_calls tr.
Proof. apply filter_event_elem. Qed.

(** A trace without ledger calls holds no ledger event, and likewise for
    posts to the provider. *)
Lemma not_ledger_call e (tr : list Event) :
  ledger_calls tr = [] → e ∈ tr → is_ledger e = true → False.
Proof.
  intros Hnone Hin He. apply (ledger_calls_elem e tr Hin) in He.
  rewrite Hnone in He. by apply elem_of_nil in He.
Qed.

Lemma not_publish_call e (tr : list Event) :
  publish_calls tr = [] → e ∈ tr → is_publish e = true → False.
Proof.
  intros Hnone Hin He. apply (publish_calls_elem e tr Hin) in He.
  rewrite Hnone in He. by apply elem_of_nil in He.
Qed.

(** ** Case analysis of a handler run *)

#[local] Arguments uploadToPinata : simpl never.
#[local] Arguments markHiveAsSold : simpl never.
#[local] Arguments mintHiveNFT : simpl never.
#[local] Arguments createHiveTokenCollection : simpl never.
#[local] Arguments require_hives : simpl never.
#[local] Arguments find_hive : simpl never.
#[local] Arguments falsy : simpl never.
#[local] Arguments message_or : simpl never.
#[local] Arguments js_str : simpl never.
#[local] Arguments bool_decide : simpl never.
#[local] Arguments purchase_metadata : simpl never.
#[local] Arguments fullMetadata : simpl never.
#[local] Arguments String.app : simpl never.
#[local] Arguments explorer_url : simpl never.
#[local] Arguments nat_to_string : simpl never.
#[local] Arguments ledger_calls : simpl never.
#[local] Arguments publish_calls : simpl never.
#[local] Arguments store_updates : simpl never.

(** The scrutinee of the innermost pending [match] of [x]. *)
Ltac innermost x k :=
  lazymatch x with
  | context [match ?y with _ => _ end] => innermost y k
  | _ => k x
  end.

(** Split on [x] in the equation [H]; a call to the publisher or to the store
    is replaced by its run, with what is known of it. *)
Ltac case_on H x :=
  lazymatch x with
  | require_hives ?w =>
      let Hw := fresh "Hreq_world" in
      let Ht := fresh "Hreq_trace" in
      pose proof (require_hives_world w) as Hw;
      pose proof (require_hives_trace w) as Ht;
      destruct (require_hives w) as [[?loaded|?msg] ?w' ?tr] eqn:?; simpl in Hw, Ht, H
  | uploadToPinata ?e ?m ?w =>
      let Hw := fresh "Hup_world" in
      let Ht := fresh "Hup_trace" in
      pose proof (uploadToPinata_world e m w) as Hw;
      pose proof (uploadToPinata_trace e m w) as Ht;
      destruct (uploadToPinata e m w) as [[?uri|?msg] ?w' ?tr] eqn:?; simpl in Hw, Ht, H
  | markHiveAsSold ?e ?h ?b ?s ?w =>
      let Ho := fresh "Hmark_outcome" in
      let Ht := fresh "Hmark_trace" in
      pose proof (markHiveAsSold_returns e w h b s) as Ho;
      pose proof (markHiveAsSold_trace e w h b s) as Ht;
      destruct (markHiveAsSold e h b s w) as [[?|?msg] ?w' ?tr] eqn:?;
      simpl in Ho, Ht, H; [|discriminate Ho]
  | _ => destruct x eqn:?; simpl in H
  end.

Ltac step H :=
  match type of H with
  | context [match ?x with _ => _ end] => innermost x ltac:(fun y => case_on H y)
  end.

(** All the ways the run [r] of a handler can go. *)
Ltac cases_of_run r :=
  match goal with
  | Hr : r = _ |- _ =>
      unfold handle, buy_hive, mint_nft, create_token in Hr;
      unfold mintHiveNFT, createHiveTokenCollection in Hr;
      unfold_m; simpl in Hr;
      repeat step Hr; subst r; simpl
  end.

(** The facts known of the calls, one per hypothesis. *)
Ltac split_facts :=
  repeat match goal with
         | H : _ ∧ _ |- _ => destruct H
         end.

(** Push the filters through the computed trace of the goal. *)
Ltac use_facts :=
  split_facts;
  autorewrite with trace_filter; simpl;
  repeat match goal with
         | F : ledger_calls ?t = [] |- _ => rewrite F
         | F : publish_calls ?t = [] |- _ => rewrite F
         | F : store_updates ?t = [] |- _ => rewrite F
         end;
  simpl.

(** Which event of a computed trace [H] speaks of; the part of a trace that
    is known to hold no event of that kind is ruled out. *)
Ltac elem_cases H :=
  lazymatch type of H with
  | _ ∈ [] => by apply elem_of_nil in H
  | _ ∈ _ :: _ =>
      apply elem_of_cons in H; destruct H as [H|H]; [simplify_eq | elem_cases H]
  | _ ∈ _ ++ _ =>
      apply elem_of_app in H; destruct H as [H|H]; elem_cases H
  | ?e ∈ ?tr =>
      try (exfalso;
           first [ eapply (not_ledger_call e tr); [eassumption | exact H | reflexivity]
                 | eapply (not_publish_call e tr); [eassumption | exact H | reflexivity] ])
  end.

(** The event [H] speaks of, in a run that has been split into its cases. *)
Ltac find_event H := simpl in H; split_facts; elem_cases H.

(** ** The purchase workflow *)

(** What the publisher returns does not depend on the store. *)
Lemma uploadToPinata_outcome env metadata w w' :
  outcome (uploadToPinata env metadata w) = outcome (uploadToPinata env metadata w').
Proof.
  unfold uploadToPinata, IpfsHash_of. unfold_m.
  destruct (attributes metadata !! 0%nat); simpl;
    [destruct (pinata env) as [?|?| |h]; simpl; [| | |destruct (falsy h); simpl] |];
    destruct (hive_id_attribute metadata); reflexivity.
Qed.

(** The publisher posts the document it was given, and only that. *)
Lemma uploadToPinata_posts env metadata w pin_name content :
  PinataPost pin_name content ∈ trace (uploadToPinata env metadata w) →
  content = metadata.
Proof.
  unfold uploadToPinata, IpfsHash_of. unfold_m.
  destruct (attributes metadata !! 0%nat); simpl;
    [destruct (pinata env) as [?|?| |h]; simpl; [| | |destruct (falsy h); simpl] |];
    destruct (hive_id_attribute metadata); simpl; intros Hin; elem_cases Hin;
    reflexivity.
Qed.

(** C6.  When the mint of a purchase is handed to the ledger and the ledger
    rejects it, the request fails with status 500, the mint is the only
    ledger call (no transfer is attempted), markHiveAsSold is not called and
    the stored records are as they were. *)
Theorem mint_failure env req w t k b msg :
  LedgerMint t k b ∈ trace (buy_hive env req w) →
  ledger_mint env = Thrown msg →
  outcome (buy_hive env req w)
  = Returned (res_status_json 500 (ErrorBody (message_or msg "Purchase failed"))) ∧
  ledger_calls (trace (buy_hive env req w)) = [LedgerMint t k b] ∧
  store_updates (trace (buy_hive env req w)) = [] ∧
  file (world (buy_hive env req w)) = file w.
Proof.
  intros Hin Hmint.
  remember (buy_hive env req w) as r eqn:Hr.
  cases_of_run r.
  all: find_event Hin.
  all: try congruence.
  use_facts. by repeat split; congruence.
Qed.

(** C4.  When the transfer of a purchase is handed to the ledger and the
    ledger rejects it, the mint before it had succeeded; the request fails
    with status 500; the ledger has seen the mint and the transfer and
    nothing after them, so the mint is not undone; markHiveAsSold is not
    called and the stored records are as they were. *)
Theorem transfer_failure env req w t s from to key msg :
  LedgerTransfer t s from to key ∈ trace (buy_hive env req w) →
  ledger_transfer env = Thrown msg →
  ledger_mint env = Returned s ∧
  outcome (buy_hive env req w)
  = Returned (res_status_json 500 (ErrorBody (message_or msg "Purchase failed"))) ∧
  (∃ k b, ledger_calls (trace (buy_hive env req w))
          = [LedgerMint t k b; LedgerTransfer t s from to key]) ∧
  store_updates (trace (buy_hive env req w)) = [] ∧
  file (world (buy_hive env req w)) = file w.
Proof.
  intros Hin Htransfer.
  remember (buy_hive env req w) as r eqn:Hr.
  cases_of_run r.
  all: find_event Hin.
  all: try congruence.
  use_facts. repeat split; eauto; congruence.
Qed.

Lemma commit_fails_same_file w w' hiveId :
  file w' = file w → writable w' = writable w →
  commit_fails w hiveId → commit_fails w' hiveId.
Proof. unfold commit_fails. by intros -> ->. Qed.

(** C10.  markHiveAsSold returns normally whatever the state of the file,
    and changes nothing when the file is missing, is not JSON, has no record
    of that id or cannot be written; so a purchase whose transfer the ledger
    accepted (its mint had been accepted before) is answered with status 200
    and the success body, also when the record could not be committed and the
    file is as it was. *)
Theorem commit_failure_is_silent env req w t s from to key receipt :
  LedgerTransfer t s from to key ∈ trace (buy_hive env req w) →
  ledger_transfer env = Returned receipt →
  (∀ hiveId buyer serial w',
     outcome (markHiveAsSold env hiveId buyer serial w') = Returned tt ∧
     (commit_fails w' hiveId →
      world (markHiveAsSold env hiveId buyer serial w') = w')) ∧
  ledger_mint env = Returned s ∧
  outcome (buy_hive env req w)
  = Returned (res_json (BoughtBody s t (explorer_url t s)
                          (transfer_transactionId receipt)
                          "NFT minted and transferred to your wallet!")) ∧
  (commit_fails w (buy_hiveId req) → file (world (buy_hive env req w)) = file w).
Proof.
  intros Hin Htransfer. split.
  { intros hiveId buyer serial w'. split.
    - apply markHiveAsSold_returns.
    - apply markHiveAsSold_silent. }
  remember (buy_hive env req w) as r eqn:Hr.
  cases_of_run r.
  all: find_event Hin.
  all: try congruence.
  repeat split; try congruence.
  intros Hfails.
  match goal with
  | Hrun : markHiveAsSold ?e ?h ?b ?s' ?w1 = _ |- _ =>
      pose proof (markHiveAsSold_silent e w1 h b s') as Hsilent;
      rewrite Hrun in Hsilent; simpl in Hsilent
  end.
  rewrite Hsilent; [congruence|].
  eapply commit_fails_same_file; [| |exact Hfails]; congruence.
Qed.

Lemma publish_calls_inv e (tr : list Event) : e ∈ publish_calls tr → e ∈ tr.
Proof. intros Hin. by apply list_elem_of_filter in Hin as [_ ?]. Qed.

(** The document a run posted is the one its publisher was called with. *)
Ltac posted_document Hin :=
  find_event Hin;
  match goal with
  | Hrun : uploadToPinata ?e ?m ?w1 = mkRun _ _ ?tr, Hposted : _ ∈ ?tr |- _ =>
      let Hposts := fresh "Hposts" in
      pose proof (uploadToPinata_posts e m w1) as Hposts;
      rewrite Hrun in Hposts; simpl in Hposts;
      apply Hposts in Hposted
  end.

(** C5.  A metadata URI of more than 100 bytes stops the mint before any
    transaction reaches the ledger, in mintHiveNFT (which returns the failure
    object with "Metadata too long") and in the purchase workflow (which
    answers 500 with "Metadata too big"). *)
Theorem metadata_too_large env w uri :
  (100 < byte_length uri)%nat →
  (∀ supplyKey tokenId hiveMetadata,
     outcome (uploadToPinata env (fullMetadata hiveMetadata) w) = Returned uri →
     outcome (mintHiveNFT env (Some supplyKey) (Some tokenId) hiveMetadata w)
     = Returned (ErrorBody ("Metadata too long: "
                            +:+ nat_to_string (byte_length uri) +:+ " bytes")) ∧
     ledger_calls (trace (mintHiveNFT env (Some supplyKey) (Some tokenId)
                                      hiveMetadata w)) = []) ∧
  (∀ req pin_name metadata,
     PinataPost pin_name metadata ∈ trace (buy_hive env req w) →
     outcome (uploadToPinata env metadata w) = Returned uri →
     outcome (buy_hive env req w)
     = Returned (res_status_json 500 (ErrorBody "Metadata too big (max 100 bytes)")) ∧
     ledger_calls (trace (buy_hive env req w)) = [] ∧
     store_updates (trace (buy_hive env req w)) = [] ∧
     file (world (buy_hive env req w)) = file w).
Proof.
  intros Hlong. split.
  - intros supplyKey tokenId hiveMetadata Hup.
    remember (mintHiveNFT env (Some supplyKey) (Some tokenId) hiveMetadata w)
      as r eqn:Hr.
    cases_of_run r.
    all: simpl in Hup; simplify_eq.
    all: try match goal with
             | Hb : bool_decide _ = false |- _ =>
                 by apply bool_decide_eq_false in Hb
             end.
    by use_facts.
  - intros req pin_name metadata Hin Hup.
    remember (buy_hive env req w) as r eqn:Hr.
    cases_of_run r.
    all: posted_document Hin.
    all: subst metadata.
    all: match goal with
         | Hrun : uploadToPinata _ _ ?w1 = _ |- _ =>
             rewrite (uploadToPinata_outcome _ _ w w1), Hrun in Hup;
             simpl in Hup; simplify_eq
         end.
    all: try match goal with
             | Hb : bool_decide _ = false |- _ =>
                 by apply bool_decide_eq_false in Hb
             end.
    use_facts. repeat split; congruence.
Qed.

(** ** Validation of a purchase *)


(** ** Ledger rejections *)

(** C2, as the code has it.  When the ledger rejects a transaction of a
    request, the body is {success:false, error}.  For the purchase workflow
    the status is 500 and the error is the ledger's message, or "Purchase
    failed" when that message is empty.  For collection creation and minting
    the helpers of nft.js catch the error and return the failure object, which
    the endpoint sends with the default status 200 and the ledger's message
    unchanged. *)
Theorem ledger_rejection env c w e msg :
  e ∈ trace (handle env c w) →
  rejected env e msg →
  outcome (handle env c w) = Returned (rejection_response c msg).
Proof.
  intros Hin Hrej.
  remember (handle env c w) as r eqn:Hr.
  destruct c as [|mreq|breq]; cases_of_run r.
  all: find_event Hin.
  all: try (destruct e; simpl in Hrej; try contradiction; elem_cases Hin).
  all: simpl in Hrej; try contradiction.
  all: congruence.
Qed.

(** ** The cross-origin policy *)

(** C9, as the code has it.  A request is admitted when it has no Origin
    header or an empty one, admitted when the value of its Origin header is
    in the allow-list, and refused otherwise; the store is not touched. *)
Theorem cors_policy env origin w :
  (falsy origin = true →
   outcome (cors_origin env origin w) = Returned Allowed) ∧
  (∀ o, origin = Some o → o ∈ allowedOrigins env →
        outcome (cors_origin env origin w) = Returned Allowed) ∧
  (∀ o, origin = Some o → o ≠ "" → o ∉ allowedOrigins env →
        outcome (cors_origin env origin w) = Returned (Refused "Not allowed by CORS")) ∧
  world (cors_origin env origin w) = w.
Proof.
  unfold cors_origin. unfold_m. repeat split.
  - by intros ->.
  - intros o -> Hin. destruct (falsy (Some o)); [done|].
    unfold js_str. simpl. by rewrite bool_decide_eq_true_2.
  - intros o -> Hne Hout. unfold falsy, js_str. simpl.
    by rewrite !bool_decide_eq_false_2.
  - destruct (falsy origin); [done|]. by case_bool_decide.
Qed.

Lemma cors_policy_witness :
  outcome (cors_origin sample_env (Some "https://evil.example") sample_world)
  = Returned (Refused "Not allowed by CORS").
Proof.
  apply (cors_policy sample_env (Some "https://evil.example") sample_world)
    with (o := "https://evil.example").
  - reflexivity.
  - discriminate.
  - intros Hin. cbv [allowedOrigins or_else falsy sample_env FRONTEND_URL] in Hin.
    elem_cases Hin.
Defined.

(** The allow-list never holds the empty string. *)
Lemma empty_origin_not_listed env : "" ∉ allowedOrigins env.
Proof.
  unfold allowedOrigins, or_else. intros Hin.
  destruct (falsy (FRONTEND_URL env)) eqn:Hf; [elem_cases Hin|].
  destruct (FRONTEND_URL env) as [url|]; [|discriminate Hf].
  unfold falsy in Hf. apply bool_decide_eq_false in Hf.
  unfold js_str in Hin. simpl in Hin. elem_cases Hin.
Qed.

(** C9, as the claim has it, fails: a request whose Origin header is empty
    carries a header whose value is not in the allow-list, and is admitted. *)
Lemma cors_admits_empty_origin :
  ("" ∉ allowedOrigins sample_env) ∧
  outcome (cors_origin sample_env (Some "") sample_world) = Returned Allowed ∧
  (outcome (cors_origin sample_env (Some "") sample_world)
   ≠ Returned (Refused "Not allowed by CORS")).
Proof.
  split; [apply empty_origin_not_listed|]. split; [reflexivity|discriminate].
Qed.

(** ** Runs on sample data *)

Lemma mint_failure_witness :
  let env := rejecting_mint "INSUFFICIENT_PAYER_BALANCE" in
  outcome (buy_hive env sample_request sample_world)
  = Returned (res_status_json 500 (ErrorBody "INSUFFICIENT_PAYER_BALANCE")) ∧
  ledger_calls (trace (buy_hive env sample_request sample_world))
  = [LedgerMint "0.0.5678" "valid-key" "ipfs://QmHash"] ∧
  store_updates (trace (buy_hive env sample_request sample_world)) = [] ∧
  file (world (buy_hive env sample_request sample_world)) = FileHives [hive_001].
Proof.
  intros env.
  apply (mint_failure env sample_request sample_world
           "0.0.5678" "valid-key" "ipfs://QmHash" "INSUFFICIENT_PAYER_BALANCE").
  - vm_compute. in_trace.
  - reflexivity.
Defined.

Lemma transfer_failure_witness :
  let env := rejecting_transfer "TOKEN_NOT_ASSOCIATED_TO_ACCOUNT" in
  ledger_mint env = Returned "1" ∧
  outcome (buy_hive env sample_request sample_world)
  = Returned (res_status_json 500 (ErrorBody "TOKEN_NOT_ASSOCIATED_TO_ACCOUNT")) ∧
  (∃ k b, ledger_calls (trace (buy_hive env sample_request sample_world))
          = [LedgerMint "0.0.5678" k b;
             LedgerTransfer "0.0.5678" "1" "0.0.2" "0.0.1234" "operator-key"]) ∧
  store_updates (trace (buy_hive env sample_request sample_world)) = [] ∧
  file (world (buy_hive env sample_request sample_world)) = FileHives [hive_001].
Proof.
  intros env.
  apply (transfer_failure env sample_request sample_world
           "0.0.5678" "1" "0.0.2" "0.0.1234" "operator-key"
           "TOKEN_NOT_ASSOCIATED_TO_ACCOUNT").
  - vm_compute. in_trace.
  - reflexivity.
Defined.

(** The file is read-only: the purchase is answered 200 and the record is
    still 'available'. *)
Lemma commit_failure_is_silent_witness :
  let w := mkWorld (FileHives [hive_001]) false None in
  outcome (buy_hive sample_env sample_request w)
  = Returned (res_json (BoughtBody "1" "0.0.5678"
                          "https://hashscan.io/testnet/token/0.0.5678/1"
                          "0.0.2@2.0"
                          "NFT minted and transferred to your wallet!")) ∧
  file (world (buy_hive sample_env sample_request w)) = FileHives [hive_001].
Proof.
  intros w.
  destruct (commit_failure_is_silent sample_env sample_request w
              "0.0.5678" "1" "0.0.2" "0.0.1234" "operator-key"
              (mkTransferReceipt "0.0.2@2.0" "SUCCESS"))
    as (_ & _ & Hok & Hfile).
  - vm_compute. in_trace.
  - reflexivity.
  - split; [exact Hok|]. apply Hfile. right. reflexivity.
Defined.

Lemma metadata_too_large_witness :
  outcome (mintHiveNFT long_uri_env (Some "supply-key") (Some "0.0.5678")
             (mkHiveMetadata None None None None None None None None) sample_world)
  = Returned (ErrorBody "Metadata too long: 125 bytes") ∧
  outcome (buy_hive long_uri_env sample_request sample_world)
  = Returned (res_status_json 500 (ErrorBody "Metadata too big (max 100 bytes)")) ∧
  ledger_calls (trace (buy_hive long_uri_env sample_request sample_world)) = [].
Proof.
  assert (Hlong : (100 < byte_length ("ipfs://" +:+ long_hash))%nat)
    by (vm_compute; lia).
  destruct (metadata_too_large long_uri_env sample_world
              ("ipfs://" +:+ long_hash) Hlong) as [Hmint Hbuy].
  split.
  - apply Hmint. reflexivity.
  - destruct (Hbuy sample_request "Ecolive Hive #HIVE-001"
                (purchase_metadata hive_001 (Some "0.0.1234")))
      as (Hout & Hledger & _).
    + vm_compute. in_trace.
    + reflexivity.
    + split; [exact Hout|exact Hledger].
Defined.



Lemma ledger_rejection_witness :
  outcome (handle (rejecting_transfer "TOKEN_NOT_ASSOCIATED_TO_ACCOUNT")
                  (PostBuyHive sample_request) sample_world)
  = Returned (res_status_json 500 (ErrorBody "TOKEN_NOT_ASSOCIATED_TO_ACCOUNT")).
Proof.
  apply (ledger_rejection (rejecting_transfer "TOKEN_NOT_ASSOCIATED_TO_ACCOUNT")
           (PostBuyHive sample_request) sample_world
           (LedgerTransfer "0.0.5678" "1" "0.0.2" "0.0.1234" "operator-key")
           "TOKEN_NOT_ASSOCIATED_TO_ACCOUNT").
  - vm_compute. in_trace.
  - reflexivity.
Defined.

(** C2, as the claim has it, fails: a collection creation that the ledger
    rejects is answered with status 200, and so is a rejected mint of
    POST /api/mint-nft. *)
Lemma rejected_creation_is_200 :
  let env := rejecting_create "INSUFFICIENT_TX_FEE" in
  LedgerCreate ∈ trace (create_token env sample_world) ∧
  rejected env LedgerCreate "INSUFFICIENT_TX_FEE" ∧
  outcome (create_token env sample_world)
  = Returned (mkResponse 200 (ErrorBody "INSUFFICIENT_TX_FEE")) ∧
  (outcome (create_token env sample_world)
   ≠ Returned (mkResponse 500 (ErrorBody "INSUFFICIENT_TX_FEE"))).
Proof.
  intros env. split; [vm_compute; in_trace|].
  repeat split; try reflexivity. discriminate.
Qed.

(** C1: the first purchase of HIVE-001 succeeds and the file records the
    sale; the same request again, in the same process, finds the array that
    [require] cached before the sale, passes the "already sold" check, and
    publishes, mints and transfers a second time. *)
Lemma second_purchase_not_rejected :
  let first := buy_hive sample_env sample_request sample_world in
  let second := buy_hive sample_env sample_request (world first) in
  outcome first
  = Returned (res_json (BoughtBody "1" "0.0.5678"
                          "https://hashscan.io/testnet/token/0.0.5678/1"
                          "0.0.2@2.0"
                          "NFT minted and transferred to your wallet!")) ∧
  file (world first) = FileHives [hive_001_sold] ∧
  require_cache (world first) = Some [hive_001] ∧
  outcome second = outcome first ∧
  (outcome second ≠ Returned already_sold) ∧
  publish_calls (trace second)
  = [PinataPost "Ecolive Hive #HIVE-001"
                (purchase_metadata hive_001 (Some "0.0.1234"))] ∧
  ledger_calls (trace second)
  = [LedgerMint "0.0.5678" "valid-key" "ipfs://QmHash";
     LedgerTransfer "0.0.5678" "1" "0.0.2" "0.0.1234" "operator-key"].
Proof.
  intros first second. repeat split; try reflexivity. discriminate.
Qed.

(** After a restart the module cache is empty, the file is loaded again, and
    the same request is rejected without any call. *)
Lemma second_purchase_rejected_after_restart :
  let first := buy_hive sample_env sample_request sample_world in
  let restarted := mkWorld (file (world first)) (writable (world first)) None in
  run (buy_hive sample_env sample_request) restarted
  = mkRun (Returned already_sold)
          (mkWorld (FileHives [hive_001_sold]) true (Some [hive_001_sold]))
          [Console LevelLog "BUY REQUEST RECEIVED:"; RequireJson].
Proof. reflexivity. Qed.

(** ** A purchase repeated in the same process *)

Lemma markHiveAsSold_cache env w hiveId buyerAccountId serial :
  require_cache (world (markHiveAsSold env hiveId buyerAccountId serial w))
  = require_cache w.
Proof.
  unfold markHiveAsSold, read_hives_file, write_hives_file. unfold_m.
  destruct (file w) as [| |hives]; simpl; try reflexivity.
  destruct (list_find _ hives) as [[hiveIndex ?]|]; simpl; [|reflexivity].
  destruct (writable w); reflexivity.
Qed.

Lemma require_hives_hit w HIVES :
  require_cache w = Some HIVES →
  require_hives w = mkRun (Returned HIVES) w [].
Proof. unfold require_hives. by intros ->. Qed.

(** Whatever the first purchase wrote to the file, a second request of the
    same process is checked against the array cached before the sale: it is
    accepted again and the ledger sees a second mint and a second transfer. *)
Lemma repeated_purchase_accepted env req w t s from to key receipt :
  LedgerTransfer t s from to key ∈ trace (buy_hive env req w) →
  ledger_transfer env = Returned receipt →
  outcome (buy_hive env req (world (buy_hive env req w)))
  = outcome (buy_hive env req w) ∧
  ∃ k b, ledger_calls (trace (buy_hive env req (world (buy_hive env req w))))
         = [LedgerMint t k b; LedgerTransfer t s from to key].
Proof.
  intros Hin Htransfer.
  remember (buy_hive env req w) as r eqn:Hr.
  cases_of_run r.
  all: find_event Hin.
  all: try congruence.
  match goal with
  | Hload : require_hives w = mkRun (Returned ?HIVES) ?w0 _,
    Hmark : markHiveAsSold ?e ?h ?b ?s' ?w1 = mkRun _ ?w2 _ |- _ =>
      assert (Hhit : require_hives w2 = mkRun (Returned HIVES) w2 []);
      [ apply require_hives_hit;
        pose proof (markHiveAsSold_cache e w1 h b s') as Hsame;
        rewrite Hmark in Hsame; simpl in Hsame; rewrite Hsame;
        pose proof (require_hives_cached w HIVES) as Hcached;
        rewrite Hload in Hcached; simpl in Hcached;
        try subst; by apply Hcached
      | clear Hload Hmark ]
  end.
  match goal with
  | |- context [buy_hive env req ?w2] =>
      remember (buy_hive env req w2) as r2 eqn:Hr2
  end.
  cases_of_run r2.
  all: simplify_eq.
  all: repeat match goal with
              | H1 : ?x = _, H2 : ?x = _ |- _ => rewrite H1 in H2
              end.
  all: simplify_eq.
  all: try match goal with
           | H1 : uploadToPinata ?e ?m ?wa = _,
             H2 : uploadToPinata ?e ?m ?wb = _ |- _ =>
               pose proof (uploadToPinata_outcome e m wa wb) as Hsame;
               rewrite H1, H2 in Hsame; simpl in Hsame; simplify_eq
           end.
  all: try match goal with
           | H1 : bool_decide ?P = true, H2 : bool_decide ?P = false |- _ =>
               congruence
           end.
  use_facts. split; [reflexivity|eauto].
Qed.

(** * Further properties *)

#[local] Arguments or_null : simpl never.
#[local] Arguments or_else : simpl never.

(** ** The record store under updates *)

(** Selling a record keeps its id, so it is found where it was. *)
Lemma list_find_sold hiveId hives i h buyer serial soldAt' :
  list_find (λ h, Some (id h) = hiveId) hives = Some (i, h) →
  list_find (λ h, Some (id h) = hiveId) (alter (sell buyer serial soldAt') i hives)
  = Some (i, sell buyer serial soldAt' h).
Proof.
  intros (Hi & Hid & Hfirst)%list_find_Some.
  apply list_find_Some. split; [|split].
  - by rewrite list_lookup_alter_eq, Hi.
  - done.
  - intros j y Hj Hlt. rewrite list_lookup_alter_ne in Hj by lia. eauto.
Qed.

(** X1.  markHiveAsSold never adds, removes or reorders records: the file
    keeps its length and its ids, in order, and every record that has
    another id, or that comes after a record with the id, is as it was. *)
Theorem markHiveAsSold_keeps_collection env w hiveId buyer serial hives :
  file w = FileHives hives →
  ∃ hives',
    file (world (markHiveAsSold env hiveId buyer serial w)) = FileHives hives' ∧
    length hives' = length hives ∧
    id <$> hives' = id <$> hives ∧
    (∀ j h, hives !! j = Some h →
            (Some (id h) ≠ hiveId ∨
             ∃ i h0, (i < j)%nat ∧ hives !! i = Some h0 ∧ Some (id h0) = hiveId) →
            hives' !! j = Some h).
Proof.
  intros Hfile.
  unfold markHiveAsSold, read_hives_file, write_hives_file. unfold_m.
  rewrite Hfile. simpl.
  destruct (list_find _ hives) as [[i h0]|] eqn:Hfind; simpl;
    [destruct (writable w); simpl|].
  2,3: exists hives; by rewrite ?Hfile.
  exists (alter (sell buyer serial (now env)) i hives).
  apply list_find_Some in Hfind as (Hi & Hid & Hfirst).
  split; [done|]. split; [apply length_alter|]. split.
  - rewrite (list_fmap_alter id (sell buyer serial (now env)) (λ x, x)).
    + by rewrite list_alter_id.
    + by apply Forall_forall.
  - intros j h Hj [Hne | (i' & h' & Hlt & Hi' & Hid')].
    + rewrite list_lookup_alter_ne; [done|]. intros ->. congruence.
    + rewrite list_lookup_alter_ne; [done|]. intros ->.
      destruct (decide (i' < j)%nat); [|lia].
      by apply (Hfirst i' h').
Qed.

Lemma markHiveAsSold_keeps_collection_witness :
  ∃ hives',
    file (world (markHiveAsSold sample_env (Some "HIVE-001") (Some "0.0.1234") "1"
                   (mkWorld (FileHives [hive_001; hive_001]) true None)))
    = FileHives hives' ∧
    length hives' = 2%nat ∧
    id <$> hives' = ["HIVE-001"; "HIVE-001"] ∧
    hives' !! 1%nat = Some hive_001.
Proof.
  destruct (markHiveAsSold_keeps_collection sample_env
              (mkWorld (FileHives [hive_001; hive_001]) true None)
              (Some "HIVE-001") (Some "0.0.1234") "1" [hive_001; hive_001] eq_refl)
    as (hives' & Hfile & Hlen & Hids & Hrest).
  exists hives'. repeat split; try assumption.
  apply Hrest; [reflexivity|]. right. exists 0%nat, hive_001.
  repeat split; try reflexivity; lia.
Defined.

(** X2.  markHiveAsSold has no guard against a record that is sold already:
    a second call for the same hive id overwrites owner, serial number and
    date, and the file ends as if only the second call had been made. *)
Theorem markHiveAsSold_last_write_wins env1 env2 w hiveId buyer1 serial1
    buyer2 serial2 :
  file (world (markHiveAsSold env2 hiveId buyer2 serial2
                 (world (markHiveAsSold env1 hiveId buyer1 serial1 w))))
  = file (world (markHiveAsSold env2 hiveId buyer2 serial2 w)).
Proof.
  unfold markHiveAsSold, read_hives_file, write_hives_file. unfold_m.
  destruct w as [f wr cache]. simpl.
  destruct f as [| |hives]; simpl; try reflexivity.
  destruct (list_find _ hives) as [[i h]|] eqn:Hfind; simpl.
  - destruct wr; simpl.
    + rewrite (list_find_sold hiveId hives i h buyer1 serial1 (now env1) Hfind).
      simpl. rewrite list_alter_alter_eq. reflexivity.
    + rewrite Hfind. reflexivity.
  - rewrite Hfind. reflexivity.
Qed.

(** X3.  A purchase whose transfer the ledger accepted rewrites the file, when
    it holds a record of the hive id and can be written, with the first such
    record sold to the investor of the request: status 'sold', owner, serial
    number of the mint, date; the other fields are kept. *)
Theorem purchase_commits_record env req w t s from to key receipt hives i h :
  LedgerTransfer t s from to key ∈ trace (buy_hive env req w) →
  ledger_transfer env = Returned receipt →
  file w = FileHives hives →
  writable w = true →
  list_find (λ h, Some (id h) = buy_hiveId req) hives = Some (i, h) →
  ∃ hives',
    file (world (buy_hive env req w)) = FileHives hives' ∧
    hives' = alter (sell (buy_investorAccountId req) s (now env)) i hives ∧
    hives' !! i = Some (mkHive (id h) (name h) (description h) (image h)
                               (location h) (farmer h) (price h) "sold"
                               (buy_investorAccountId req) (Some s)
                               (Some (now env))).
Proof.
  intros Hin Htransfer Hfile Hwritable Hfind.
  remember (buy_hive env req w) as r eqn:Hr.
  cases_of_run r.
  all: find_event Hin.
  all: try congruence.
  match goal with
  | Hrun : markHiveAsSold ?e ?hid ?b ?s' ?w1 = _ |- _ =>
      pose proof (markHiveAsSold_commits e w1 hid b s' hives i h) as Hcommit;
      rewrite Hrun in Hcommit; simpl in Hcommit
  end.
  eexists. split; [apply Hcommit; congruence|]. split; [reflexivity|].
  apply list_find_Some in Hfind as (Hi & _ & _).
  by rewrite list_lookup_alter_eq, Hi.
Qed.

Lemma purchase_commits_record_witness :
  file (world (buy_hive sample_env sample_request sample_world))
  = FileHives [hive_001_sold].
Proof.
  destruct (purchase_commits_record sample_env sample_request sample_world
              "0.0.5678" "1" "0.0.2" "0.0.1234" "operator-key"
              (mkTransferReceipt "0.0.2@2.0" "SUCCESS") [hive_001] 0%nat hive_001)
    as (hives' & Hfile & -> & _).
  - vm_compute. in_trace.
  - reflexivity.
  - reflexivity.
  - reflexivity.
  - reflexivity.
  - exact Hfile.
Defined.

(** ** All the routes *)

Lemma require_hives_keeps_cache w HIVES :
  require_cache w = Some HIVES →
  require_cache (world (require_hives w)) = Some HIVES.
Proof. intros Hc. by rewrite (require_hives_hit w HIVES Hc). Qed.

Lemma uploadToPinata_posts_once env metadata w :
  (length (publish_calls (trace (uploadToPinata env metadata w))) ≤ 1)%nat.
Proof.
  unfold uploadToPinata, IpfsHash_of. unfold_m.
  destruct (attributes metadata !! 0%nat); simpl;
    [destruct (pinata env) as [?|?| |h]; simpl; [| | |destruct (falsy h); simpl] |];
    destruct (hive_id_attribute metadata); simpl;
    autorewrite with trace_filter; simpl; lia.
Qed.

Lemma markHiveAsSold_writable env w hiveId buyerAccountId serial :
  writable (world (markHiveAsSold env hiveId buyerAccountId serial w)) = writable w.
Proof.
  unfold markHiveAsSold, read_hives_file, write_hives_file. unfold_m.
  destruct (file w) as [| |hives]; simpl; try reflexivity.
  destruct (list_find _ hives) as [[hiveIndex ?]|]; simpl; [|reflexivity].
  destruct (writable w) eqn:Hw; simpl; by rewrite ?Hw.
Qed.

(** All the ways a request can go, whatever its route. *)
Ltac cases_of_serve r :=
  match goal with
  | Hr : r = _ |- _ =>
      unfold serve, hive_status, health, mint_nft_without_body,
        buy_hive_without_body in Hr
  end;
  cases_of_run r.

(** What the runs of the store and of the publisher, named by the case
    analysis, did to the module cache and how often they posted. *)
Ltac run_facts :=
  repeat match goal with
         | Hrun : require_hives ?w = mkRun _ ?w' _ |- _ =>
             lazymatch goal with
             | _ : ∀ HIVES, require_cache w = Some HIVES → require_cache w' = Some HIVES |- _ => fail
             | _ =>
                 let Hc := fresh "Hcache" in
                 pose proof (require_hives_keeps_cache w) as Hc;
                 rewrite Hrun in Hc; simpl in Hc
             end
         | Hrun : markHiveAsSold ?e ?h ?b ?s ?w = mkRun _ ?w' _ |- _ =>
             lazymatch goal with
             | _ : require_cache w' = require_cache w |- _ => fail
             | _ =>
                 let Hc := fresh "Hcache" in
                 pose proof (markHiveAsSold_cache e w h b s) as Hc;
                 rewrite Hrun in Hc; simpl in Hc
             end
         | Hrun : uploadToPinata ?e ?m ?w = mkRun _ _ ?tr |- _ =>
             lazymatch goal with
             | _ : (length (publish_calls tr) ≤ 1)%nat |- _ => fail
             | _ =>
                 let Hp := fresh "Hposts" in
                 pose proof (uploadToPinata_posts_once e m w) as Hp;
                 rewrite Hrun in Hp; simpl in Hp
             end
         end.

(** Console lines do not matter to the filters: forget their texts, then
    push the filters through the computed trace of the goal. *)
Ltac forget_console :=
  repeat match goal with
         | |- context [Console ?l ?s] =>
             tryif is_var s then fail
             else (let text := fresh "text" in generalize s; intros text)
         end.

(** The filters as plain recursive functions, which compute on a trace. *)
Lemma filter_event_bool (p : Event → bool) (tr : list Event) :
  filter p tr = List.filter p tr.
Proof.
  induction tr as [|e tr IH]; [reflexivity|].
  rewrite filter_event_cons, IH. simpl. by destruct (p e).
Qed.

Lemma ledger_calls_bool tr : ledger_calls tr = List.filter is_ledger tr.
Proof. apply filter_event_bool. Qed.

Lemma publish_calls_bool tr : publish_calls tr = List.filter is_publish tr.
Proof. apply filter_event_bool. Qed.

Lemma store_updates_bool tr : store_updates tr = List.filter is_store_update tr.
Proof. apply filter_event_bool. Qed.

Ltac filter_trace :=
  forget_console; split_facts;
  rewrite ?ledger_calls_bool, ?publish_calls_bool, ?store_updates_bool in *;
  simpl; repeat (rewrite !List.filter_app; simpl);
  repeat match goal with
         | F : List.filter _ ?t = [] |- _ => rewrite F
         end;
  rewrite ?app_nil_r; simpl.

(** X4.  Every route answers a request whose body, where the handler reads
    one, is an object: the status is 200, 400, 404 or 500, and an answer whose
    status is not 200 is a failure object {success:false, error}.  The one
    exception that leaves a handler is the TypeError of destructuring an
    undefined req.body in mint-nft and buy-hive (server.js 137 and 158, both
    before the try): nothing has been called or changed by then. *)
Theorem serve_answers_unless_body_missing env NODE_ENV route w :
  (without_body route →
   (∃ property,
      outcome (serve env NODE_ENV route w) = Thrown (destructure_error property)) ∧
   world (serve env NODE_ENV route w) = w ∧
   ledger_calls (trace (serve env NODE_ENV route w)) = [] ∧
   publish_calls (trace (serve env NODE_ENV route w)) = [] ∧
   store_updates (trace (serve env NODE_ENV route w)) = []) ∧
  (¬ without_body route →
   ∃ a, outcome (serve env NODE_ENV route w) = Returned a ∧
        answer_status a ∈ [200; 400; 404; 500]%nat ∧
        (answer_status a ≠ 200%nat → is_failure a)).
Proof.
  split.
  - intros [-> | ->]; (split; [eexists; reflexivity|]); by repeat split.
  - intros Hbody.
    remember (serve env NODE_ENV route w) as r eqn:Hr.
    cases_of_serve r.
    all: try (exfalso; apply Hbody; by (left + right)).
    all: eexists; split; [reflexivity|]; simpl.
    all: split; [in_trace | intros Hstatus; try done; eexists; reflexivity].
Qed.

Lemma serve_answers_unless_body_missing_witness :
  outcome (serve sample_env None PostBuyHiveWithoutBody sample_world)
  = Thrown (destructure_error "hiveId") ∧
  (∃ property,
     outcome (serve sample_env None PostMintNftWithoutBody sample_world)
     = Thrown (destructure_error property)) ∧
  ∃ a, outcome (serve sample_env None (Post (PostBuyHive sample_request))
                  sample_world) = Returned a ∧
       answer_status a ∈ [200; 400; 404; 500]%nat.
Proof.
  split; [reflexivity|]. split.
  - apply (serve_answers_unless_body_missing
             sample_env None PostMintNftWithoutBody sample_world).
    by left.
  - destruct (serve_answers_unless_body_missing
                sample_env None (Post (PostBuyHive sample_request)) sample_world)
      as [_ Hanswers].
    destruct Hanswers as (a & Ha & Hstatus & _).
    + by intros [?|?].
    + by exists a.
Defined.

(** Whatever the request, a document posted to the provider is one of the
    two that [published] lists. *)
Lemma posted_documents_are_published env NODE_ENV route w pin_name content :
  PinataPost pin_name content ∈ trace (serve env NODE_ENV route w) →
  published content.
Proof.
  intros Hin.
  remember (serve env NODE_ENV route w) as r eqn:Hr.
  cases_of_serve r.
  all: posted_document Hin.
  all: subst; constructor.
Qed.

(** X5.  No route reloads the record collection: once [require] has cached
    the array, every later request leaves that array in the cache, also the
    purchase that rewrites the file. *)
Theorem serve_keeps_cache env NODE_ENV route w HIVES :
  require_cache w = Some HIVES →
  require_cache (world (serve env NODE_ENV route w)) = Some HIVES.
Proof.
  intros Hloaded.
  remember (serve env NODE_ENV route w) as r eqn:Hr.
  cases_of_serve r.
  all: run_facts; split_facts; subst; try done.
  all: repeat match goal with
              | H : ∀ HIVES, _ → _ |- _ => specialize (H _ Hloaded)
              end.
  all: congruence.
Qed.

Lemma serve_keeps_cache_witness :
  let w := world (buy_hive sample_env sample_request sample_world) in
  file w = FileHives [hive_001_sold] ∧
  require_cache (world (serve sample_env None (GetHiveStatus "HIVE-001") w))
  = Some [hive_001].
Proof.
  intros w. split; [reflexivity|].
  apply (serve_keeps_cache sample_env None (GetHiveStatus "HIVE-001") w [hive_001]).
  reflexivity.
Defined.

(** X6.  Nothing is retried: a request posts to the provider at most once,
    and hands the ledger nothing, one creation, one mint, or one mint followed
    by one transfer of the token and serial of that mint. *)
Theorem serve_never_retries env NODE_ENV route w :
  (length (publish_calls (trace (serve env NODE_ENV route w))) ≤ 1)%nat ∧
  (ledger_calls (trace (serve env NODE_ENV route w)) = [] ∨
   ledger_calls (trace (serve env NODE_ENV route w)) = [LedgerCreate] ∨
   (∃ t k b, ledger_calls (trace (serve env NODE_ENV route w)) = [LedgerMint t k b]) ∨
   (∃ t k b s from to key,
      ledger_mint env = Returned s ∧
      ledger_calls (trace (serve env NODE_ENV route w))
      = [LedgerMint t k b; LedgerTransfer t s from to key])).
Proof.
  remember (serve env NODE_ENV route w) as r eqn:Hr.
  cases_of_serve r.
  all: run_facts; filter_trace.
  all: split; [rewrite ?length_app; simpl; lia|].
  all: first [ by left
             | by right; left
             | right; right; left; by eauto
             | right; right; right; by eauto 10 ].
Qed.

(** X7.  The file is written on one path only: a request that reads or
    writes the file through markHiveAsSold, or leaves the file other than it
    found it, is a purchase whose mint and transfer the ledger both
    accepted. *)
Theorem store_changes_only_after_transfer env NODE_ENV route w :
  (store_updates (trace (serve env NODE_ENV route w)) = [] ∧
   file (world (serve env NODE_ENV route w)) = file w) ∨
  (∃ req s receipt,
     route = Post (PostBuyHive req) ∧
     ledger_mint env = Returned s ∧
     ledger_transfer env = Returned receipt).
Proof.
  remember (serve env NODE_ENV route w) as r eqn:Hr.
  cases_of_serve r.
  all: try (right; by eauto 10).
  all: left; filter_trace; split; [done|congruence].
Qed.

(** X8.  The status endpoint and the purchase look the hive up in the same
    cached array, so in any one state they agree: for a request with its
    fields present and identifiers that parse, the purchase answers 404
    exactly when the status endpoint does, and answers "already sold" exactly
    when the status endpoint reports the hive as not available. *)
Theorem hive_status_agrees_with_buy_hive env req w hiveId :
  buy_hiveId req = Some hiveId →
  fields_missing req = false →
  identifiers_parse env req →
  (outcome (buy_hive env req w) = Returned (not_found (Some hiveId)) ↔
   outcome (hive_status hiveId w)
   = Returned (mkGetResponse 404 (GetError "Hive not found"))) ∧
  (outcome (buy_hive env req w) = Returned already_sold ↔
   ∃ hive, outcome (hive_status hiveId w)
           = Returned (mkGetResponse 200
                         (HiveStatusBody (id hive) (status hive) false
                            (or_null (owner hive)) (or_null (serialNumber hive))))).
Proof.
  unfold fields_missing, identifiers_parse.
  intros Hid Hpresent (Ht & Hk & Hb & Ha & Hok).
  destruct Ht, Hk, Hb, Ha, Hok.
  remember (buy_hive env req w) as r eqn:Hr.
  remember (hive_status hiveId w) as q eqn:Hq.
  unfold hive_status in Hq.
  cases_of_run r.
  all: try congruence.
  all: cases_of_run q.
  all: rewrite ?Hid in *.
  all: simplify_eq.
  all: repeat match goal with
              | H1 : ?x = _, H2 : ?x = _ |- _ => rewrite H1 in H2
              end.
  all: simplify_eq.
  all: split; split; try (intros [hive Hst]); try intros Heq; simplify_eq.
  all: try done.
  all: try (eexists; reflexivity).
  all: match goal with
       | Hb : bool_decide _ = _ |- _ => rewrite Hb in *
       end.
  all: first [done | by eexists].
Qed.

Lemma hive_status_agrees_with_buy_hive_witness :
  let w := mkWorld (FileHives [hive_001_sold]) true None in
  outcome (buy_hive sample_env sample_request w) = Returned already_sold ∧
  outcome (hive_status "HIVE-001" w)
  = Returned (mkGetResponse 200
                (HiveStatusBody "HIVE-001" "sold" false (Some "0.0.1234") (Some "1"))).
Proof.
  intros w.
  destruct (hive_status_agrees_with_buy_hive sample_env sample_request w "HIVE-001")
    as [_ [_ Hsold]].
  - reflexivity.
  - reflexivity.
  - repeat split; eexists; reflexivity.
  - split; [|reflexivity].
    apply Hsold. exists hive_001_sold. reflexivity.
Defined.

(** X9.  After a purchase that went through, the status endpoint of the
    same process still answers from the array cached before the sale: it
    reports the hive with the status it had, as available. *)
Theorem hive_status_stale_after_purchase env req w t s from to key receipt hiveId :
  LedgerTransfer t s from to key ∈ trace (buy_hive env req w) →
  ledger_transfer env = Returned receipt →
  buy_hiveId req = Some hiveId →
  ∃ hive,
    status hive ≠ "sold" ∧
    outcome (hive_status hiveId (world (buy_hive env req w)))
    = Returned (mkGetResponse 200
                  (HiveStatusBody (id hive) (status hive) true
                     (or_null (owner hive)) (or_null (serialNumber hive)))).
Proof.
  intros Hin Htransfer Hid.
  remember (buy_hive env req w) as r eqn:Hr.
  cases_of_run r.
  all: find_event Hin.
  all: try congruence.
  run_facts.
  match goal with
  | Hload : require_hives w = mkRun (Returned ?HIVES) ?w0 _,
    Hmark : markHiveAsSold _ _ _ _ _ = mkRun _ ?w2 _ |- _ =>
      assert (Hhit : require_hives w2 = mkRun (Returned HIVES) w2 []);
      [ apply require_hives_hit;
        pose proof (require_hives_cached w HIVES) as Hcached;
        rewrite Hload in Hcached; simpl in Hcached;
        specialize (Hcached eq_refl); congruence
      | ]
  end.
  match goal with
  | Hfind : find_hive _ _ = Some ?h |- _ => exists h
  end.
  split.
  - match goal with
    | Hb : bool_decide _ = false |- _ => by apply bool_decide_eq_false in Hb
    end.
  - unfold hive_status. unfold_m. rewrite Hhit. simpl.
    rewrite Hid in *.
    match goal with
    | Hfind : find_hive _ _ = Some _ |- _ => rewrite Hfind
    end.
    simpl.
    match goal with
    | Hb : bool_decide _ = false |- _ => by rewrite Hb
    end.
Qed.

Lemma hive_status_stale_after_purchase_witness :
  let w := world (buy_hive sample_env sample_request sample_world) in
  file w = FileHives [hive_001_sold] ∧
  ∃ hive,
    status hive ≠ "sold" ∧
    outcome (hive_status "HIVE-001" w)
    = Returned (mkGetResponse 200
                  (HiveStatusBody (id hive) (status hive) true
                     (or_null (owner hive)) (or_null (serialNumber hive)))).
Proof.
  intros w. split; [reflexivity|].
  apply (hive_status_stale_after_purchase sample_env sample_request sample_world
           "0.0.5678" "1" "0.0.2" "0.0.1234" "operator-key"
           (mkTransferReceipt "0.0.2@2.0" "SUCCESS") "HIVE-001").
  - vm_compute. in_trace.
  - reflexivity.
  - reflexivity.
Defined.

(** ** What reaches the ledger *)

(** What the publisher returns is the provider's content hash behind
    "ipfs://", or, when the provider failed, the "Hive ID" value behind
    "hive:". *)
Lemma uploadToPinata_result env metadata w uri :
  outcome (uploadToPinata env metadata w) = Returned uri →
  (∃ hash, pinata env = BodyObject (Some hash) ∧ hash ≠ "" ∧
           uri = "ipfs://" +:+ hash) ∨
  (∃ a, provider_fails (pinata env) ∧ hive_id_attribute metadata = Some a ∧
        uri = "hive:" +:+ value a).
Proof.
  unfold uploadToPinata, IpfsHash_of, provider_fails. unfold_m.
  destruct (attributes metadata !! 0%nat) as [first|] eqn:Hfirst; simpl.
  - destruct (pinata env) as [?|?| |h]; simpl.
    4: destruct (falsy h) eqn:Hfalsy; simpl.
    1-4: destruct (hive_id_attribute metadata) as [a|]; simpl;
      intros Huri; simplify_eq; right; by exists a.
    intros Huri; simplify_eq. left.
    destruct h as [hash|]; [|discriminate Hfalsy].
    exists hash. unfold falsy in Hfalsy. apply bool_decide_eq_false in Hfalsy.
    done.
  - destruct (hive_id_attribute metadata) as [a|] eqn:Ha; simpl;
      intros Huri; simplify_eq.
    apply hive_id_attribute_first in Ha as [first' Hfirst']. congruence.
Qed.

(** A publisher that returned has posted its document. *)
Lemma uploadToPinata_posted env metadata w uri :
  outcome (uploadToPinata env metadata w) = Returned uri →
  ∃ pin_name, PinataPost pin_name metadata ∈ trace (uploadToPinata env metadata w).
Proof.
  unfold uploadToPinata, IpfsHash_of. unfold_m.
  destruct (attributes metadata !! 0%nat) as [first|] eqn:Hfirst; simpl.
  - destruct (pinata env) as [?|?| |h]; simpl; [| | |destruct (falsy h); simpl];
      destruct (hive_id_attribute metadata); simpl; intros Huri; simplify_eq;
      eexists; in_trace.
  - destruct (hive_id_attribute metadata) as [a|] eqn:Ha; simpl;
      intros Huri; simplify_eq.
    apply hive_id_attribute_first in Ha as [first' Hfirst']. congruence.
Qed.

(** X10.  Whatever the route, the metadata of a mint handed to the ledger is
    at most 100 bytes long and is the URI the publisher returned for the
    document of that request: the provider's content hash behind "ipfs://",
    or, when the provider failed, the document's "Hive ID" behind "hive:". *)
Theorem minted_metadata_is_bounded_uri env c w t k b :
  LedgerMint t k b ∈ trace (handle env c w) →
  (byte_length b ≤ 100)%nat ∧
  ∃ pin_name metadata,
    PinataPost pin_name metadata ∈ trace (handle env c w) ∧
    ((∃ hash, pinata env = BodyObject (Some hash) ∧ hash ≠ "" ∧
              b = "ipfs://" +:+ hash) ∨
     (∃ a, provider_fails (pinata env) ∧ hive_id_attribute metadata = Some a ∧
           b = "hive:" +:+ value a)).
Proof.
  intros Hin.
  remember (handle env c w) as r eqn:Hr.
  destruct c as [|mreq|breq]; cases_of_run r.
  all: find_event Hin.
  all: match goal with
       | Hb : bool_decide (100 < _)%nat = false |- _ =>
           apply bool_decide_eq_false in Hb
       end.
  all: split; [lia|].
  all: match goal with
       | Hrun : uploadToPinata ?e ?m ?w1 = mkRun (Returned ?u) _ ?tr |- _ =>
           pose proof (uploadToPinata_result e m w1 u) as Hshape;
           pose proof (uploadToPinata_posted e m w1 u) as Hposted;
           rewrite Hrun in Hshape, Hposted; simpl in Hposted;
           specialize (Hshape eq_refl); specialize (Hposted eq_refl)
       end.
  all: destruct Hposted as [n Hposted]; exists n; eexists.
  all: split; [|exact Hshape].
  all: simpl; rewrite ?elem_of_cons, ?elem_of_app; eauto 10.
Qed.

Lemma minted_metadata_is_bounded_uri_witness :
  let env := with_pinata (FetchRejects "ECONNREFUSED") sample_env in
  (byte_length "hive:HIVE-001" ≤ 100)%nat ∧
  ∃ pin_name metadata,
    PinataPost pin_name metadata
      ∈ trace (handle env (PostBuyHive sample_request) sample_world) ∧
    ((∃ hash, pinata env = BodyObject (Some hash) ∧ hash ≠ "" ∧
              "hive:HIVE-001" = "ipfs://" +:+ hash) ∨
     (∃ a, provider_fails (pinata env) ∧ hive_id_attribute metadata = Some a ∧
           "hive:HIVE-001" = "hive:" +:+ value a)).
Proof.
  intros env.
  apply (minted_metadata_is_bounded_uri env (PostBuyHive sample_request)
           sample_world "0.0.5678" "valid-key" "hive:HIVE-001").
  vm_compute. in_trace.
Defined.

(** X11.  The transfer of a purchase moves the token and serial just minted
    from the operator's account to the investor named in the request, under
    the operator's key; the mint before it used the token id and supply key
    of the request. *)
Theorem transfer_goes_to_buyer env req w t s from to key :
  LedgerTransfer t s from to key ∈ trace (buy_hive env req w) →
  TokenId_fromString env (js_str (buy_tokenId req)) = Returned t ∧
  ledger_mint env = Returned s ∧
  AccountId_fromString env (MY_ACCOUNT_ID env) = Returned from ∧
  AccountId_fromString env (js_str (buy_investorAccountId req)) = Returned to ∧
  PrivateKey_fromString env (MY_PRIVATE_KEY env) = Returned key ∧
  ∃ k b,
    PrivateKey_fromString env (js_str (buy_supplyKey req)) = Returned k ∧
    ledger_calls (trace (buy_hive env req w))
    = [LedgerMint t k b; LedgerTransfer t s from to key].
Proof.
  intros Hin.
  remember (buy_hive env req w) as r eqn:Hr.
  cases_of_run r.
  all: find_event Hin.
  all: repeat split; try done.
  all: eexists _, _; split; [reflexivity|].
  all: filter_trace; reflexivity.
Qed.

Lemma transfer_goes_to_buyer_witness :
  AccountId_fromString sample_env (js_str (buy_investorAccountId sample_request))
  = Returned "0.0.1234" ∧
  ledger_mint sample_env = Returned "1".
Proof.
  destruct (transfer_goes_to_buyer sample_env sample_request sample_world
              "0.0.5678" "1" "0.0.2" "0.0.1234" "operator-key")
    as (_ & Hmint & _ & Hto & _).
  - vm_compute. in_trace.
  - split; [exact Hto|exact Hmint].
Defined.

Lemma byte_length_app (a b : string) :
  byte_length (a +:+ b) = (byte_length a + byte_length b)%nat.
Proof.
  unfold byte_length. induction a as [|c a IH]; simpl; [reflexivity|].
  by rewrite IH.
Qed.

(** X12.  The fallback URI is "hive:" and the hive id, so while the provider
    fails a hive whose id is longer than 95 bytes cannot be bought: the
    request is answered 500 "Metadata too big" and nothing reaches the
    ledger. *)
Theorem long_hive_id_needs_provider env req w pin_name metadata a :
  PinataPost pin_name metadata ∈ trace (buy_hive env req w) →
  provider_fails (pinata env) →
  hive_id_attribute metadata = Some a →
  (95 < byte_length (value a))%nat →
  outcome (buy_hive env req w)
  = Returned (res_status_json 500 (ErrorBody "Metadata too big (max 100 bytes)")) ∧
  ledger_calls (trace (buy_hive env req w)) = [].
Proof.
  intros Hin Hfails Ha Hlong.
  remember (buy_hive env req w) as r eqn:Hr.
  cases_of_run r.
  all: posted_document Hin.
  all: subst metadata.
  all: match goal with
       | Hrun : uploadToPinata ?e ?m ?w1 = _ |- _ =>
           destruct (uploadToPinata_fallback e m w1 a Ha Hfails) as [Hfallback _];
           rewrite Hrun in Hfallback; simpl in Hfallback; simplify_eq
       end.
  all: try match goal with
           | Hb : bool_decide _ = false |- _ =>
               apply bool_decide_eq_false in Hb;
               rewrite byte_length_app in Hb; simpl in Hb; lia
           end.
  filter_trace. by split.
Qed.

Lemma long_hive_id_needs_provider_witness :
  let w := mkWorld (FileHives [long_id_hive]) true None in
  outcome (buy_hive provider_down long_id_request w)
  = Returned (res_status_json 500 (ErrorBody "Metadata too big (max 100 bytes)")) ∧
  ledger_calls (trace (buy_hive provider_down long_id_request w)) = [].
Proof.
  intros w.
  apply (long_hive_id_needs_provider provider_down long_id_request w
           ("Ecolive Hive #" +:+ long_hash)
           (purchase_metadata long_id_hive (Some "0.0.1234"))
           (mkAttribute "Hive ID" long_hash)).
  - vm_compute. in_trace.
  - exact I.
  - reflexivity.
  - vm_compute. lia.
Defined.

(** ** The helpers of nft.js and their endpoints *)

(** X13.  mintHiveNFT throws to its caller exactly when the token id or the
    supply key is not given, and then before anything is logged, posted or
    minted; every other failure (provider, size, ledger) comes back as a
    result object. *)
Theorem mintHiveNFT_throws_iff_unset env supplyKey tokenId hiveMetadata w :
  ((tokenId = None ∨ supplyKey = None) ↔
   ∃ msg, outcome (mintHiveNFT env supplyKey tokenId hiveMetadata w) = Thrown msg) ∧
  ((tokenId = None ∨ supplyKey = None) →
   mintHiveNFT env supplyKey tokenId hiveMetadata w
   = mkRun (Thrown "Token not created yet. Run createHiveTokenCollection() first.")
           w []).
Proof.
  split.
  - split.
    + intros [-> | ->]; [|destruct tokenId]; eexists; reflexivity.
    + intros [msg Hthrown].
      destruct tokenId as [t|]; [|by left].
      destruct supplyKey as [k|]; [|by right].
      exfalso.
      remember (mintHiveNFT env (Some k) (Some t) hiveMetadata w) as r eqn:Hr.
      cases_of_run r; discriminate Hthrown.
  - intros [-> | ->]; [|destruct tokenId]; reflexivity.
Qed.

(** X14.  POST /api/create-token always answers with status 200: with the
    identifiers and keys of the receipt when the ledger accepted the
    creation, with {success:false, error} and the ledger's message when it
    did not.  It makes one ledger call, no post to the provider, and leaves
    the store alone. *)
Theorem create_token_always_200 env w :
  ∃ b,
    outcome (create_token env w) = Returned (mkResponse 200 b) ∧
    ((∃ r, ledger_create env = Returned r ∧
           b = CreatedBody (created_tokenId r) (created_supplyKey r)
                           (created_adminKey r) (created_transactionId r)) ∨
     (∃ msg, ledger_create env = Thrown msg ∧ b = ErrorBody msg)) ∧
    world (create_token env w) = w ∧
    ledger_calls (trace (create_token env w)) = [LedgerCreate] ∧
    publish_calls (trace (create_token env w)) = [].
Proof.
  remember (create_token env w) as r eqn:Hr.
  cases_of_run r.
  all: eexists; split; [reflexivity|].
  all: split; [eauto|].
  all: filter_trace; by repeat split.
Qed.

(** X15.  POST /api/mint-nft never touches the record store.  For a
    request whose body is an object it answers 400 exactly when the token id
    or the supply key is missing, and 500 exactly when both are present and
    the SDK rejects one of them; a failure of the provider or of the ledger is
    answered with status 200.  A request whose req.body is undefined gets no
    answer from the handler: it logs the request, and the destructuring of
    line 137, which stands before the try, throws. *)
Theorem mint_nft_statuses env w :
  (∀ req,
     world (mint_nft env req w) = w ∧
     store_updates (trace (mint_nft env req w)) = [] ∧
     ∃ resp,
       outcome (mint_nft env req w) = Returned resp ∧
       (http_status resp = 400%nat ↔
        falsy (mint_tokenId req) || falsy (mint_supplyKey req) = true) ∧
       (http_status resp = 500%nat ↔
        falsy (mint_tokenId req) || falsy (mint_supplyKey req) = false ∧
        ((∃ msg, TokenId_fromString env (js_str (mint_tokenId req)) = Thrown msg) ∨
         (∃ msg, PrivateKey_fromString env (js_str (mint_supplyKey req)) = Thrown msg)))) ∧
  mint_nft_without_body w
  = mkRun (Thrown (destructure_error "tokenId")) w
          [Console LevelLog "MINT-NFT REQUEST RECEIVED"].
Proof.
  split; [|reflexivity].
  intros req.
  remember (mint_nft env req w) as r eqn:Hr.
  cases_of_run r.
  all: split; [congruence|].
  all: split; [by filter_trace|].
  all: eexists; split; [reflexivity|]; simpl.
  all: split; split; try done; try (intros [? [[? ?]|[? ?]]]; congruence).
  all: intros _; split; [done|]; eauto.
Qed.

(** X16.  When the ledger accepts the mint of POST /api/mint-nft, the answer
    is 200 with the serial of the receipt, and its tokenId and ipfsURL are
    the token and the metadata that were handed to the ledger. *)
Theorem mint_nft_reports_what_was_minted env req w t k b s :
  LedgerMint t k b ∈ trace (mint_nft env req w) →
  ledger_mint env = Returned s →
  outcome (mint_nft env req w)
  = Returned (res_json (MintedBody s t b (explorer_url t s))) ∧
  TokenId_fromString env (js_str (mint_tokenId req)) = Returned t ∧
  PrivateKey_fromString env (js_str (mint_supplyKey req)) = Returned k.
Proof.
  intros Hin Hmint.
  remember (mint_nft env req w) as r eqn:Hr.
  cases_of_run r.
  all: find_event Hin.
  all: try congruence.
  repeat split; congruence.
Qed.

Lemma mint_nft_reports_what_was_minted_witness :
  outcome (mint_nft sample_env sample_mint_request sample_world)
  = Returned (res_json (MintedBody "1" "0.0.5678" "ipfs://QmHash"
                          "https://hashscan.io/testnet/token/0.0.5678/1")).
Proof.
  apply (mint_nft_reports_what_was_minted sample_env sample_mint_request
           sample_world "0.0.5678" "supply-key" "ipfs://QmHash" "1").
  - vm_compute. in_trace.
  - reflexivity.
Defined.

(** ** What the answers of a purchase mean *)

(** X17.  Each answer of POST /api/buy-hive has one cause.  A 400 is the
    missing-fields answer of a request that misses a field, or the
    "already sold" answer for a record found with status 'sold'; a 404 means
    the loaded collection has no record of the hive id; a 200 means the
    ledger accepted both the mint and the transfer. *)
Theorem buy_hive_answers_have_one_cause env req w resp :
  outcome (buy_hive env req w) = Returned resp →
  (http_status resp = 400%nat →
   (resp = missing_fields ∧ fields_missing req = true) ∨
   (resp = already_sold ∧ fields_missing req = false ∧
    ∃ HIVES hive, outcome (require_hives w) = Returned HIVES ∧
                  find_hive (buy_hiveId req) HIVES = Some hive ∧
                  status hive = "sold")) ∧
  (http_status resp = 404%nat →
   resp = not_found (buy_hiveId req) ∧
   ∃ HIVES, outcome (require_hives w) = Returned HIVES ∧
            find_hive (buy_hiveId req) HIVES = None) ∧
  (http_status resp = 200%nat →
   ∃ s receipt, ledger_mint env = Returned s ∧
                ledger_transfer env = Returned receipt).
Proof.
  unfold fields_missing.
  intros Hout.
  remember (buy_hive env req w) as r eqn:Hr.
  cases_of_run r.
  all: simpl in Hout; simplify_eq; simpl.
  all: (split; [|split]); intros Hstatus; try discriminate Hstatus.
  - by left.
  - right. repeat split; try done.
    eexists _, _. repeat split; try done.
    match goal with
    | Hb : bool_decide _ = true |- _ => by apply bool_decide_eq_true in Hb
    end.
  - eexists _, _. by split.
  - split; [done|]. eexists. by split.
Qed.

Lemma buy_hive_answers_have_one_cause_witness :
  ∃ s receipt, ledger_mint sample_env = Returned s ∧
               ledger_transfer sample_env = Returned receipt.
Proof.
  eapply (buy_hive_answers_have_one_cause sample_env sample_request sample_world).
  - reflexivity.
  - reflexivity.
Defined.

(** ** The configured origin *)

(** X18.  The two localhost origins are admitted under every configuration.
    A FRONTEND_URL that is set replaces the placeholder origin: it is
    admitted and the placeholder is refused; when FRONTEND_URL is unset or
    empty the placeholder is admitted. *)
Theorem cors_configured_origin env w :
  outcome (cors_origin env (Some "http://localhost:5173") w) = Returned Allowed ∧
  outcome (cors_origin env (Some "http://localhost:3000") w) = Returned Allowed ∧
  (∀ url, FRONTEND_URL env = Some url → url ≠ "" →
          outcome (cors_origin env (Some url) w) = Returned Allowed ∧
          (url ≠ default_frontend →
           outcome (cors_origin env (Some default_frontend) w)
           = Returned (Refused "Not allowed by CORS"))) ∧
  (falsy (FRONTEND_URL env) = true →
   outcome (cors_origin env (Some default_frontend) w) = Returned Allowed).
Proof.
  unfold cors_origin, allowedOrigins, or_else, default_frontend. unfold_m.
  split; [|split; [|split]].
  - reflexivity.
  - reflexivity.
  - intros url Hurl Hne. rewrite Hurl.
    assert (Hf : falsy (Some url) = false)
      by (unfold falsy; by apply bool_decide_eq_false_2).
    rewrite Hf. split.
    + unfold js_str. simpl. by rewrite bool_decide_eq_true_2 by in_trace.
    + intros Hother. unfold falsy, js_str. simpl.
      rewrite bool_decide_eq_false_2; [done|].
      intros Hin. elem_cases Hin; congruence.
  - intros Hf. rewrite Hf. unfold falsy, js_str. simpl.
    first [reflexivity | by rewrite bool_decide_eq_true_2 by in_trace].
Qed.

Lemma cors_configured_origin_witness :
  let env := with_frontend (Some "https://hives.example") sample_env in
  outcome (cors_origin env (Some "https://hives.example") sample_world)
  = Returned Allowed ∧
  outcome (cors_origin env (Some default_frontend) sample_world)
  = Returned (Refused "Not allowed by CORS").
Proof.
  intros env.
  destruct (cors_configured_origin env sample_world) as (_ & _ & Hset & _).
  destruct (Hset "https://hives.example" eq_refl) as [Hallowed Hrefused].
  - discriminate.
  - split; [exact Hallowed|]. apply Hrefused. discriminate.
Defined.

(** ** A committed purchase, seen after a restart *)

(** What a purchase that went through leaves behind, when the file holds the
    record and can be written. *)
Lemma buy_hive_committed env req w t s from to key receipt hives i h :
  LedgerTransfer t s from to key ∈ trace (buy_hive env req w) →
  ledger_transfer env = Returned receipt →
  file w = FileHives hives →
  writable w = true →
  list_find (λ h, Some (id h) = buy_hiveId req) hives = Some (i, h) →
  file (world (buy_hive env req w))
  = FileHives (alter (sell (buy_investorAccountId req) s (now env)) i hives) ∧
  writable (world (buy_hive env req w)) = true ∧
  fields_missing req = false ∧
  identifiers_parse env req.
Proof.
  unfold fields_missing, identifiers_parse.
  intros Hin Htransfer Hfile Hwritable Hfind.
  remember (buy_hive env req w) as r eqn:Hr.
  cases_of_run r.
  all: find_event Hin.
  all: try congruence.
  match goal with
  | Hrun : markHiveAsSold ?e ?hid ?b ?s' ?w1 = _ |- _ =>
      pose proof (markHiveAsSold_commits e w1 hid b s' hives i h) as Hcommit;
      pose proof (markHiveAsSold_writable e w1 hid b s') as Hsame;
      rewrite Hrun in Hcommit, Hsame; simpl in Hcommit, Hsame
  end.
  split; [apply Hcommit; congruence|].
  split; [congruence|].
  split; [done|]. repeat split; eauto.
Qed.

Lemma find_hive_sold hiveId hives i h buyer serial soldAt' :
  list_find (λ h, Some (id h) = hiveId) hives = Some (i, h) →
  find_hive hiveId (alter (sell buyer serial soldAt') i hives)
  = Some (sell buyer serial soldAt' h).
Proof.
  intros Hfind. unfold find_hive.
  by rewrite (list_find_sold hiveId hives i h buyer serial soldAt' Hfind).
Qed.

(** X19.  What a purchase wrote is what the status endpoint reads once the
    process has been started again: the hive is reported with status 'sold',
    not available, owned by the investor of the request, with the serial
    number of the mint. *)
Theorem sale_is_reported_after_restart env req w t s from to key receipt
    hives i h hiveId :
  LedgerTransfer t s from to key ∈ trace (buy_hive env req w) →
  ledger_transfer env = Returned receipt →
  file w = FileHives hives →
  writable w = true →
  list_find (λ h, Some (id h) = buy_hiveId req) hives = Some (i, h) →
  buy_hiveId req = Some hiveId →
  outcome (hive_status hiveId (restart (world (buy_hive env req w))))
  = Returned (mkGetResponse 200
                (HiveStatusBody (id h) "sold" false
                   (buy_investorAccountId req) (or_null (Some s)))).
Proof.
  intros Hin Htransfer Hfile Hwritable Hfind Hid.
  destruct (buy_hive_committed env req w t s from to key receipt hives i h
              Hin Htransfer Hfile Hwritable Hfind)
    as (Hcommitted & _ & Hpresent & _).
  unfold hive_status, require_hives, restart. unfold_m. simpl.
  rewrite Hcommitted. simpl.
  rewrite <- Hid, (find_hive_sold _ hives i h _ _ _ Hfind). simpl.
  unfold fields_missing in Hpresent.
  apply orb_false_iff in Hpresent as [_ Hinvestor].
  unfold or_null at 1. by rewrite Hinvestor.
Qed.

Lemma sale_is_reported_after_restart_witness :
  outcome (hive_status "HIVE-001"
             (restart (world (buy_hive sample_env sample_request sample_world))))
  = Returned (mkGetResponse 200
                (HiveStatusBody "HIVE-001" "sold" false (Some "0.0.1234") (Some "1"))).
Proof.
  apply (sale_is_reported_after_restart sample_env sample_request sample_world
           "0.0.5678" "1" "0.0.2" "0.0.1234" "operator-key"
           (mkTransferReceipt "0.0.2@2.0" "SUCCESS") [hive_001] 0%nat hive_001
           "HIVE-001").
  - vm_compute. in_trace.
  - reflexivity.
  - reflexivity.
  - reflexivity.
  - reflexivity.
  - reflexivity.
Defined.

(** X20.  Once the process has been started again, the request that bought
    the hive is rejected with 400 "This hive has already been sold", and
    nothing is posted, minted, transferred or written. *)
Theorem sold_hive_is_rejected_after_restart env req w t s from to key receipt
    hives i h :
  LedgerTransfer t s from to key ∈ trace (buy_hive env req w) →
  ledger_transfer env = Returned receipt →
  file w = FileHives hives →
  writable w = true →
  list_find (λ h, Some (id h) = buy_hiveId req) hives = Some (i, h) →
  outcome (buy_hive env req (restart (world (buy_hive env req w))))
  = Returned already_sold ∧
  quiet (buy_hive env req (restart (world (buy_hive env req w))))
        (world (buy_hive env req w)).
Proof.
  intros Hin Htransfer Hfile Hwritable Hfind.
  destruct (buy_hive_committed env req w t s from to key receipt hives i h
              Hin Htransfer Hfile Hwritable Hfind)
    as (Hcommitted & Hw & Hpresent & (Ht & Hk & Hb & Ha & Hok)).
  destruct Ht, Hk, Hb, Ha, Hok.
  unfold fields_missing in Hpresent.
  pose proof (find_hive_sold _ hives i h (buy_investorAccountId req) s (now env)
                Hfind) as Hsold.
  set (w1 := world (buy_hive env req w)) in *.
  assert (Hload : ∃ w2, file w2 = file w1 ∧
                        require_hives (restart w1)
                        = mkRun (Returned (alter (sell (buy_investorAccountId req)
                                                       s (now env)) i hives))
                                w2 [RequireJson]).
  { unfold require_hives, restart. simpl. rewrite Hcommitted.
    eexists. split; [|reflexivity]. simpl. congruence. }
  destruct Hload as (w2 & Hw2 & Hload).
  unfold quiet.
  remember (buy_hive env req (restart w1)) as r eqn:Hr.
  clearbody w1.
  cases_of_run r.
  all: simplify_eq.
  all: repeat match goal with
              | H1 : ?x = _, H2 : ?x = _ |- _ => rewrite H1 in H2
              end.
  all: simplify_eq.
  split; [reflexivity|]. by filter_trace.
Qed.

Lemma sold_hive_is_rejected_after_restart_witness :
  outcome (buy_hive sample_env sample_request
             (restart (world (buy_hive sample_env sample_request sample_world))))
  = Returned already_sold.
Proof.
  apply (sold_hive_is_rejected_after_restart sample_env sample_request sample_world
           "0.0.5678" "1" "0.0.2" "0.0.1234" "operator-key"
           (mkTransferReceipt "0.0.2@2.0" "SUCCESS") [hive_001] 0%nat hive_001).
  - vm_compute. in_trace.
  - reflexivity.
  - reflexivity.
  - reflexivity.
  - reflexivity.
Defined.

(** ** The status endpoint and the publisher at their edges *)

(** X21.  GET /api/hive-status answers 500 exactly when the collection
    cannot be loaded, that is when nothing is cached and the file is missing
    or is not JSON; with a cached collection it answers whatever has become
    of the file.  It answers 404 exactly when the loaded collection has no
    record of the id, and otherwise reports the record as available exactly
    when its status is not 'sold'. *)
Theorem hive_status_answers hiveId w :
  ∃ resp,
    outcome (hive_status hiveId w) = Returned resp ∧
    (get_status resp = 500%nat ↔
     require_cache w = None ∧ ∀ hives, file w ≠ FileHives hives) ∧
    (get_status resp = 404%nat ↔
     ∃ HIVES, outcome (require_hives w) = Returned HIVES ∧
              find_hive (Some hiveId) HIVES = None) ∧
    (∀ hid st available o sn,
       get_body resp = HiveStatusBody hid st available o sn →
       (available = true ↔ st ≠ "sold") ∧
       ∃ HIVES hive, outcome (require_hives w) = Returned HIVES ∧
                     find_hive (Some hiveId) HIVES = Some hive ∧
                     hid = id hive ∧ st = status hive).
Proof.
  unfold hive_status, require_hives. unfold_m.
  assert (Hfound : ∀ HIVES hive,
            find_hive (Some hiveId) HIVES = Some hive →
            ∀ hid st available o sn,
              HiveStatusBody (id hive) (status hive)
                (negb (bool_decide (status hive = "sold")))
                (or_null (owner hive)) (or_null (serialNumber hive))
              = HiveStatusBody hid st available o sn →
              (available = true ↔ st ≠ "sold") ∧ hid = id hive ∧ st = status hive).
  { intros HIVES hive _ hid st available o sn Hbody. simplify_eq.
    split; [|done].
    destruct (bool_decide_reflect (status hive = "sold")) as [Hs|Hs]; simpl;
      split; try done; intros Hne; by destruct Hne. }
  destruct (require_cache w) as [cached|] eqn:Hcache; simpl;
    [|destruct (file w) as [| |hives] eqn:Hfile; simpl].
  - destruct (find_hive (Some hiveId) cached) as [hive|] eqn:Hfind; simpl;
      eexists; (split; [reflexivity|]); simpl.
    + split; [split; [discriminate|by intros [? _]]|].
      split; [split; [discriminate|intros (H' & Hl & Hnone); simplify_eq]|].
      intros hid st available o sn Hbody.
      destruct (Hfound cached hive Hfind _ _ _ _ _ Hbody) as (? & ? & ?).
      split; [done|]. by eexists _, _.
    + split; [split; [discriminate|by intros [? _]]|].
      split; [split; [intros _; by eexists|done]|].
      intros hid st available o sn Hbody. discriminate Hbody.
  - eexists. split; [reflexivity|]. simpl.
    split; [split; [intros _; split; [done|congruence]|done]|].
    split; [split; [discriminate|intros (H' & Hl & _); discriminate Hl]|].
    intros hid st available o sn Hbody. discriminate Hbody.
  - eexists. split; [reflexivity|]. simpl.
    split; [split; [intros _; split; [done|congruence]|done]|].
    split; [split; [discriminate|intros (H' & Hl & _); discriminate Hl]|].
    intros hid st available o sn Hbody. discriminate Hbody.
  - destruct (find_hive (Some hiveId) hives) as [hive|] eqn:Hfind; simpl;
      eexists; (split; [reflexivity|]); simpl.
    + split; [split; [discriminate|intros [_ Hf]; by destruct (Hf hives)]|].
      split; [split; [discriminate|intros (H' & Hl & Hnone); simplify_eq]|].
      intros hid st available o sn Hbody.
      destruct (Hfound hives hive Hfind _ _ _ _ _ Hbody) as (? & ? & ?).
      split; [done|]. by eexists _, _.
    + split; [split; [discriminate|intros [_ Hf]; by destruct (Hf hives)]|].
      split; [split; [intros _; by eexists|done]|].
      intros hid st available o sn Hbody. discriminate Hbody.
Qed.

(** X22.  A document without attributes is never posted: building the name
    of the pin fails before the request is made and the fallback finds no
    "Hive ID", so the publisher throws, whatever the provider would have
    answered. *)
Theorem uploadToPinata_empty_attributes env metadata w :
  attributes metadata = [] →
  uploadToPinata env metadata w
  = mkRun (Thrown type_error) w
          [Console LevelWarn "Pinata failed → using fallback metadata"].
Proof.
  intros Hempty. unfold uploadToPinata, hive_id_attribute. unfold_m.
  by rewrite Hempty.
Qed.

Lemma uploadToPinata_empty_attributes_witness :
  publish_calls
    (trace (uploadToPinata sample_env (mkMetadata "n" "d" "i" []) sample_world))
  = [].
Proof.
  rewrite (uploadToPinata_empty_attributes sample_env (mkMetadata "n" "d" "i" [])
             sample_world eq_refl).
  reflexivity.
Defined.
